(** * Role-based access control: the decision engine and its two adapters

    A shallow embedding of the authorization core of the repository
    ([server/lib/rbac/types.ts], [permissions.ts], [context.ts],
    [middleware.ts], [server/modules/me/index.ts] and [lib/rbac-client.ts])
    together with the properties the specification states about it.

    Roles are kept as the strings they are at run time: the store hands the
    role over as a raw string and [context.ts] only casts it after [isRole].
    Permissions only ever come from the enumeration, so they are an
    inductive type with its wire value. *)

From stdpp Require Import base strings list gmap.

Local Open Scope string_scope.

(** ** The fragment of the JavaScript run time the code relies on *)

Module JS.

(** Completion of a call: a value, or a thrown [TypeError]. *)
Inductive outcome (A : Type) : Type :=
| Ok (a : A)
| TypeError.
Arguments Ok {A} a.
Arguments TypeError {A}.

(** What [obj[key]] evaluates to on an ordinary object: an own property,
    a member inherited from [Object.prototype], or [undefined]. *)
Inductive prop (A : Type) : Type :=
| Own (a : A)
| Inherited (name : string)
| Undefined.
Arguments Own {A} a.
Arguments Inherited {A} name.
Arguments Undefined {A}.

(** The property names every ordinary object inherits. *)
Definition object_prototype_keys : list string :=
  [ "constructor"; "__defineGetter__"; "__defineSetter__"; "hasOwnProperty";
    "__lookupGetter__"; "__lookupSetter__"; "isPrototypeOf";
    "propertyIsEnumerable"; "toString"; "valueOf"; "__proto__";
    "toLocaleString" ].

(** [obj[key]] *)
Definition get {A} (obj : gmap string A) (key : string) : prop A :=
  match obj !! key with
  | Some v => Own v
  | None =>
      if bool_decide (key ∈ object_prototype_keys) then Inherited key
      else Undefined
  end.

(** [v ?? d] *)
Definition nullish {A} (v : prop A) (d : A) : prop A :=
  match v with
  | Undefined => Own d
  | _ => v
  end.

(** The string [ToPrimitive] yields for an inherited member: the
    prototype object itself for [__proto__], a native function otherwise. *)
Definition to_primitive (name : string) : string :=
  if String.eqb name "__proto__" then "[object Object]"
  else if String.eqb name "constructor"
       then "function Object() { [native code] }"
       else "function " ++ name ++ "() { [native code] }".

(** [a >= b] where each side is a numeric own property, an inherited
    member or [undefined].  A number against a string that is no numeral,
    or anything against [undefined], compares through [NaN] and is false;
    two strings compare by code units. *)
Definition ge (a b : prop Z) : bool :=
  match a, b with
  | Own x, Own y => bool_decide (y ≤ x)%Z
  | Inherited s, Inherited t =>
      negb (String.ltb (to_primitive s) (to_primitive t))
  | _, _ => false
  end.

(** [Array.prototype.some] with a callback that may throw. *)
Fixpoint some {A} (f : A → outcome bool) (l : list A) : outcome bool :=
  match l with
  | [] => Ok false
  | x :: l' =>
      match f x with
      | Ok true => Ok true
      | Ok false => some f l'
      | TypeError => TypeError
      end
  end.

(** [Array.prototype.every] with a callback that may throw. *)
Fixpoint every {A} (f : A → outcome bool) (l : list A) : outcome bool :=
  match l with
  | [] => Ok true
  | x :: l' =>
      match f x with
      | Ok true => every f l'
      | Ok false => Ok false
      | TypeError => TypeError
      end
  end.

(** [Array.prototype.includes] *)
Definition includes `{EqDecision A} (l : list A) (x : A) : bool :=
  bool_decide (x ∈ l).

(** [Array.prototype.join] *)
Definition join (sep : string) (l : list string) : string :=
  String.concat sep l.

(** [Object.fromEntries]: entries are written in order, a later entry
    for the same key replaces an earlier one. *)
Definition fromEntries {A} (entries : list (string * A)) : gmap string A :=
  foldl (λ obj e, <[e.1 := e.2]> obj) ∅ entries.

(** Truthiness of a string-or-nullish value: [undefined], [null] and the
    empty string are falsy. *)
Definition truthy (v : option string) : bool :=
  match v with
  | Some s => negb (String.eqb s "")
  | None => false
  end.

(** [a || b] on such values. *)
Definition or (a b : option string) : option string :=
  if truthy a then a else b.

End JS.

(** ** [types.ts] *)

Module Types.

Inductive Role : Set := OWNER | TRAINER | USER.

Definition Role_value (r : Role) : string :=
  match r with
  | OWNER => "OWNER"
  | TRAINER => "TRAINER"
  | USER => "USER"
  end.

(** [Object.values(Role)] *)
Definition Role_values : list string :=
  Role_value <$> [OWNER; TRAINER; USER].

Inductive Permission : Set :=
| MANAGE_ORGANIZATION | VIEW_ORGANIZATION | DELETE_ORGANIZATION
| MANAGE_MEMBERS | INVITE_MEMBERS | REMOVE_MEMBERS | VIEW_MEMBERS
| MANAGE_TRAINERS | ASSIGN_TRAINERS
| MANAGE_USERS | VIEW_USERS
| CREATE_WORKOUTS | EDIT_WORKOUTS | DELETE_WORKOUTS | VIEW_WORKOUTS
| ASSIGN_WORKOUTS
| MANAGE_SCHEDULE | VIEW_SCHEDULE
| VIEW_ANALYTICS | VIEW_REPORTS
| MANAGE_BILLING | VIEW_BILLING
| MANAGE_SETTINGS | VIEW_SETTINGS.

Definition Permission_value (p : Permission) : string :=
  match p with
  | MANAGE_ORGANIZATION => "MANAGE_ORGANIZATION"
  | VIEW_ORGANIZATION => "VIEW_ORGANIZATION"
  | DELETE_ORGANIZATION => "DELETE_ORGANIZATION"
  | MANAGE_MEMBERS => "MANAGE_MEMBERS"
  | INVITE_MEMBERS => "INVITE_MEMBERS"
  | REMOVE_MEMBERS => "REMOVE_MEMBERS"
  | VIEW_MEMBERS => "VIEW_MEMBERS"
  | MANAGE_TRAINERS => "MANAGE_TRAINERS"
  | ASSIGN_TRAINERS => "ASSIGN_TRAINERS"
  | MANAGE_USERS => "MANAGE_USERS"
  | VIEW_USERS => "VIEW_USERS"
  | CREATE_WORKOUTS => "CREATE_WORKOUTS"
  | EDIT_WORKOUTS => "EDIT_WORKOUTS"
  | DELETE_WORKOUTS => "DELETE_WORKOUTS"
  | VIEW_WORKOUTS => "VIEW_WORKOUTS"
  | ASSIGN_WORKOUTS => "ASSIGN_WORKOUTS"
  | MANAGE_SCHEDULE => "MANAGE_SCHEDULE"
  | VIEW_SCHEDULE => "VIEW_SCHEDULE"
  | VIEW_ANALYTICS => "VIEW_ANALYTICS"
  | VIEW_REPORTS => "VIEW_REPORTS"
  | MANAGE_BILLING => "MANAGE_BILLING"
  | VIEW_BILLING => "VIEW_BILLING"
  | MANAGE_SETTINGS => "MANAGE_SETTINGS"
  | VIEW_SETTINGS => "VIEW_SETTINGS"
  end.

(** [Object.values(Permission)], in declaration order. *)
Definition Permission_values : list Permission :=
  [ MANAGE_ORGANIZATION; VIEW_ORGANIZATION; DELETE_ORGANIZATION;
    MANAGE_MEMBERS; INVITE_MEMBERS; REMOVE_MEMBERS; VIEW_MEMBERS;
    MANAGE_TRAINERS; ASSIGN_TRAINERS;
    MANAGE_USERS; VIEW_USERS;
    CREATE_WORKOUTS; EDIT_WORKOUTS; DELETE_WORKOUTS; VIEW_WORKOUTS;
    ASSIGN_WORKOUTS;
    MANAGE_SCHEDULE; VIEW_SCHEDULE;
    VIEW_ANALYTICS; VIEW_REPORTS;
    MANAGE_BILLING; VIEW_BILLING;
    MANAGE_SETTINGS; VIEW_SETTINGS ].

#[export] Instance Role_eq_dec : EqDecision Role.
Proof. solve_decision. Defined.

#[export] Instance Permission_eq_dec : EqDecision Permission.
Proof. solve_decision. Defined.

(** The three rows of the role to permissions mapping. *)
Definition OWNER_PERMISSIONS : list Permission :=
  [ MANAGE_ORGANIZATION; VIEW_ORGANIZATION; DELETE_ORGANIZATION;
    MANAGE_MEMBERS; INVITE_MEMBERS; REMOVE_MEMBERS; VIEW_MEMBERS;
    MANAGE_TRAINERS; ASSIGN_TRAINERS;
    MANAGE_USERS; VIEW_USERS;
    CREATE_WORKOUTS; EDIT_WORKOUTS; DELETE_WORKOUTS; VIEW_WORKOUTS;
    ASSIGN_WORKOUTS;
    MANAGE_SCHEDULE; VIEW_SCHEDULE;
    VIEW_ANALYTICS; VIEW_REPORTS;
    MANAGE_BILLING; VIEW_BILLING;
    MANAGE_SETTINGS; VIEW_SETTINGS ].

Definition TRAINER_PERMISSIONS : list Permission :=
  [ VIEW_ORGANIZATION; VIEW_MEMBERS; VIEW_USERS;
    CREATE_WORKOUTS; EDIT_WORKOUTS; DELETE_WORKOUTS; VIEW_WORKOUTS;
    ASSIGN_WORKOUTS;
    MANAGE_SCHEDULE; VIEW_SCHEDULE;
    VIEW_ANALYTICS; VIEW_SETTINGS ].

Definition USER_PERMISSIONS : list Permission :=
  [ VIEW_ORGANIZATION; VIEW_WORKOUTS; VIEW_SCHEDULE; VIEW_SETTINGS ].

(** [ROLE_PERMISSIONS]: the object literal, keyed by the role's value. *)
Definition ROLE_PERMISSIONS : gmap string (list Permission) :=
  <[Role_value USER := USER_PERMISSIONS]>
    (<[Role_value TRAINER := TRAINER_PERMISSIONS]>
       (<[Role_value OWNER := OWNER_PERMISSIONS]> ∅)).

Definition isRole (value : string) : bool :=
  JS.includes Role_values value.

Definition isPermission (value : string) : bool :=
  JS.includes (Permission_value <$> Permission_values) value.

(** The local [hierarchy] object of [hasRoleHierarchy]. *)
Definition hierarchy : gmap string Z :=
  <[Role_value USER := 1%Z]>
    (<[Role_value TRAINER := 2%Z]>
       (<[Role_value OWNER := 3%Z]> ∅)).

Definition hasRoleHierarchy (role1 role2 : string) : bool :=
  JS.ge (JS.get hierarchy role1) (JS.get hierarchy role2).

End Types.

(** ** [permissions.ts] *)

Module Permissions.
Import Types.

(** [ROLE_PERMISSIONS[role]?.includes(permission) ?? false]: a missing
    entry short-circuits to [false]; an inherited member is neither
    nullish nor an array, so calling its [includes] throws. *)
Definition hasPermission (role : string) (permission : Permission)
  : JS.outcome bool :=
  match JS.get ROLE_PERMISSIONS role with
  | JS.Own perms => JS.Ok (JS.includes perms permission)
  | JS.Inherited _ => JS.TypeError
  | JS.Undefined => JS.Ok false
  end.

Definition hasAnyPermission (role : string) (permissions : list Permission)
  : JS.outcome bool :=
  JS.some (λ permission, hasPermission role permission) permissions.

Definition hasAllPermissions (role : string) (permissions : list Permission)
  : JS.outcome bool :=
  JS.every (λ permission, hasPermission role permission) permissions.

Definition getRolePermissions (role : string) : JS.prop (list Permission) :=
  JS.nullish (JS.get ROLE_PERMISSIONS role) [].

Definition canManageRole (managerRole targetRole : string) : bool :=
  if String.eqb managerRole (Role_value OWNER) then true
  else if String.eqb managerRole (Role_value TRAINER)
          && String.eqb targetRole (Role_value USER) then true
  else false.

(** The [action] parameter: ["view" | "edit" | "delete" | "manage"]. *)
Inductive Action : Set := view | edit | delete_ | manage.

#[export] Instance Action_eq_dec : EqDecision Action.
Proof. solve_decision. Defined.

Definition Action_value (a : Action) : string :=
  match a with
  | view => "view"
  | edit => "edit"
  | delete_ => "delete"
  | manage => "manage"
  end.

Definition canPerformAction (actorRole targetRole : string) (action : Action)
  : bool :=
  if negb (hasRoleHierarchy actorRole targetRole) then false
  else if String.eqb actorRole (Role_value OWNER) then true
  else if String.eqb actorRole (Role_value TRAINER)
          && String.eqb targetRole (Role_value USER)
       then String.eqb (Action_value action) "view"
            || String.eqb (Action_value action) "edit"
  else false.

End Permissions.

(** ** [context.ts] *)

Module Context.
Import Types.

(** A row of the membership store, as the persistence client returns it:
    the role is still an unvalidated string. *)
Record MemberRow : Set := mkMemberRow {
  row_userId : string;
  row_organizationId : string;
  row_role : string;
}.

Record OrganizationMember : Set := mkOrganizationMember {
  userId : string;
  organizationId : string;
  role : string;
}.

(** [prisma.member.findFirst({ where: { userId, organizationId } })] *)
Definition findFirst (members : list MemberRow) (userId organizationId : string)
  : option MemberRow :=
  List.find
    (λ m, String.eqb (row_userId m) userId
          && String.eqb (row_organizationId m) organizationId)
    members.

Definition getUserRoleInOrganization
    (members : list MemberRow) (userId organizationId : string)
  : option string :=
  match findFirst members userId organizationId with
  | None => None
  | Some member =>
      if negb (isRole (row_role member)) then None
      else Some (row_role member)
  end.

Definition getOrganizationMember
    (members : list MemberRow) (userId organizationId : string)
  : option OrganizationMember :=
  match findFirst members userId organizationId with
  | None => None
  | Some member =>
      if negb (isRole (row_role member)) then None
      else Some {| userId := row_userId member;
                   organizationId := row_organizationId member;
                   role := row_role member |}
  end.

Definition isOrganizationMember
    (members : list MemberRow) (userId organizationId : string) : bool :=
  match findFirst members userId organizationId with
  | None => false
  | Some _ => true
  end.

(** [prisma.member.findMany({ where: { userId } })], then the rows with a
    valid role, as members. *)
Definition getUserOrganizations (members : list MemberRow) (userId : string)
  : list OrganizationMember :=
  (λ m, {| userId := row_userId m;
           organizationId := row_organizationId m;
           role := row_role m |})
    <$> filter (λ m, isRole (row_role m) = true)
          (filter (λ m, row_userId m = userId) members).

End Context.

(** ** [middleware.ts] *)

Module Middleware.
Import Types Permissions Context.

Record User : Set := mkUser {
  id : string;
  name : option string;
  email : string;
  image : option string;
}.

Record SessionData : Set := mkSessionData {
  activeOrganizationId : option string;
}.

(** What [auth.api.getSession] resolves to when it is not [null]. *)
Record Session : Set := mkSession {
  user : User;
  session : SessionData;
}.

(** The request as the guards read it: the session the credential
    collaborator derives from its headers, the query string and the
    path parameters. *)
Record Request : Type := mkRequest {
  getSession : option Session;
  query : gmap string string;
  param : gmap string string;
}.

(** The variables the guards [c.set] and [c.get]. *)
Record Variables : Set := mkVariables {
  var_user : option User;
  var_session : option SessionData;
  var_organizationId : option string;
  var_role : option string;
  var_member : option OrganizationMember;
}.

(** The per-request context [c]: the status set so far and the
    variables. *)
Record Ctx : Set := mkCtx {
  status : nat;
  variables : Variables;
}.

Definition fresh : Ctx :=
  {| status := 200;
     variables := {| var_user := None; var_session := None;
                     var_organizationId := None; var_role := None;
                     var_member := None |} |}.

(** A JSON body: the [{ message }] object of a denial, or a payload. *)
Inductive Body (D : Type) : Type :=
| Message (message : string)
| Data (d : D).
Arguments Message {D} message.
Arguments Data {D} d.

Record Response (D : Type) : Type := mkResponse {
  res_status : nat;
  res_body : Body D;
}.
Arguments mkResponse {D} _ _.
Arguments res_status {D} _.
Arguments res_body {D} _.

(** How a middleware or handler ends: it returns a response, it returns
    [next()], or an exception escapes it. *)
Inductive Step (D : Type) : Type :=
| Respond (r : Response D)
| Next
| Throw.
Arguments Respond {D} r.
Arguments Next {D}.
Arguments Throw {D}.

(** Code running against the context. *)
Definition M (A : Type) : Type := Ctx → A * Ctx.

#[export] Instance M_ret : MRet M := λ A a c, (a, c).
#[export] Instance M_bind : MBind M :=
  λ A B f m c, let '(a, c') := m c in f a c'.

(** [c.status(code)] *)
Definition c_status (code : nat) : M unit :=
  λ c, (tt, {| status := code; variables := variables c |}).

(** [return c.json(body)]: the response carries the status set so far. *)
Definition c_json {D} (body : Body D) : M (Step D) :=
  λ c, (Respond (mkResponse (status c) body), c).

Definition c_get {A} (proj : Variables → option A) : M (option A) :=
  λ c, (proj (variables c), c).

Definition c_set (upd : Variables → Variables) : M unit :=
  λ c, (tt, {| status := status c; variables := upd (variables c) |}).

Definition set_user (v : User) (vs : Variables) : Variables :=
  {| var_user := Some v; var_session := var_session vs;
     var_organizationId := var_organizationId vs; var_role := var_role vs;
     var_member := var_member vs |}.
Definition set_session (v : SessionData) (vs : Variables) : Variables :=
  {| var_user := var_user vs; var_session := Some v;
     var_organizationId := var_organizationId vs; var_role := var_role vs;
     var_member := var_member vs |}.
Definition set_organizationId (v : string) (vs : Variables) : Variables :=
  {| var_user := var_user vs; var_session := var_session vs;
     var_organizationId := Some v; var_role := var_role vs;
     var_member := var_member vs |}.
Definition set_role (v : string) (vs : Variables) : Variables :=
  {| var_user := var_user vs; var_session := var_session vs;
     var_organizationId := var_organizationId vs; var_role := Some v;
     var_member := var_member vs |}.
Definition set_member (v : OrganizationMember) (vs : Variables) : Variables :=
  {| var_user := var_user vs; var_session := var_session vs;
     var_organizationId := var_organizationId vs; var_role := var_role vs;
     var_member := Some v |}.

(** The organization hint: the session's active organization, else the
    query parameter, else the path parameter. *)
Definition organizationHint (req : Request) (s : Session) : option string :=
  JS.or (JS.or (activeOrganizationId (session s))
               (query req !! "organizationId"))
        (param req !! "organizationId").

Definition requireOrganizationContext {D}
    (req : Request) (members : list MemberRow) : M (Step D) :=
  match getSession req with
  | None =>
      c_status 401;;
      c_json (Message "Unauthorized")
  | Some s =>
      let organizationId := organizationHint req s in
      if negb (JS.truthy organizationId) then
        c_status 400;;
        c_json (Message "Organization ID is required")
      else
        let organizationId := default "" organizationId in
        match getOrganizationMember members (id (user s)) organizationId with
        | None =>
            c_status 403;;
            c_json (Message "User is not a member of this organization")
        | Some member =>
            c_set (set_user (user s));;
            c_set (set_session (session s));;
            c_set (set_organizationId organizationId);;
            c_set (set_role (role member));;
            c_set (set_member member);;
            mret Next
        end
  end.

Definition requireRole {D} (allowedRoles : list string) : M (Step D) :=
  role ← c_get var_role;
  if negb (JS.truthy role) || negb (JS.includes allowedRoles (default "" role))
  then
    c_status 403;;
    c_json (Message ("Access denied. Required role: "
                     ++ JS.join " or " allowedRoles))
  else mret Next.

Definition requirePermission {D} (requiredPermissions : list Permission)
  : M (Step D) :=
  role ← c_get var_role;
  if negb (JS.truthy role) then
    c_status 403;;
    c_json (Message "Role not found in context")
  else
    match hasAnyPermission (default "" role) requiredPermissions with
    | JS.TypeError => mret Throw
    | JS.Ok false =>
        c_status 403;;
        c_json (Message ("Access denied. Required permission: "
                         ++ JS.join " or "
                              (Permission_value <$> requiredPermissions)))
    | JS.Ok true => mret Next
    end.

Definition requireAllPermissions {D} (requiredPermissions : list Permission)
  : M (Step D) :=
  role ← c_get var_role;
  if negb (JS.truthy role) then
    c_status 403;;
    c_json (Message "Role not found in context")
  else
    match hasAllPermissions (default "" role) requiredPermissions with
    | JS.TypeError => mret Throw
    | JS.Ok false =>
        c_status 403;;
        c_json (Message ("Access denied. Required all permissions: "
                         ++ JS.join " and "
                              (Permission_value <$> requiredPermissions)))
    | JS.Ok true => mret Next
    end.

Definition checkPermission (role : string) (permission : Permission)
  : JS.outcome bool :=
  hasPermission role permission.

(** What running a route leaves behind: how it ended, the context, and
    how many times the protected handler was entered. *)
Record Run (D : Type) : Type := mkRun {
  outcome : Step D;
  context : Ctx;
  handler_calls : nat;
}.
Arguments mkRun {D} _ _ _.
Arguments outcome {D} _.
Arguments context {D} _.
Arguments handler_calls {D} _.

(** The router's dispatch over [.use(m1) ... .get(path, m2, handler)]:
    each middleware runs in turn; the one after it runs only when it
    returned [next()], and the handler only after the last of them. *)
Fixpoint dispatch {D} (chain : list (M (Step D))) (handler : M (Step D))
    (c : Ctx) : Run D :=
  match chain with
  | [] => let '(s, c') := handler c in mkRun s c' 1
  | m :: chain' =>
      match m c with
      | (Next, c') => dispatch chain' handler c'
      | (s, c') => mkRun s c' 0
      end
  end.

End Middleware.

(** ** [lib/rbac-client.ts] *)

Module RbacClient.
Import Types Context.

Record Organization : Set := mkOrganization {
  org_id : string;
  org_name : string;
  org_slug : option string;
  org_logo : option string;
  org_createdAt : string;
}.

(** The membership summary as it travels: the object the endpoint passes
    to [c.json] and the client reads back.  Fields the endpoint takes
    from [c.get] are optional on the wire. *)
Record MembershipSummary : Type := mkMembershipSummary {
  user : option Middleware.User;
  member : option OrganizationMember;
  organization : option Organization;
  role : option string;
  permissions : list Permission;
  can : gmap string bool;
}.

Definition hasRole (role_ : string + list string)
    (membership : option MembershipSummary) : bool :=
  match membership with
  | None => false
  | Some membership =>
      let targetRoles :=
        match role_ with inl r => [r] | inr rs => rs end in
      match role membership with
      | Some r => JS.includes targetRoles r
      | None => false
      end
  end.

Record PermissionCheckOptions : Set := mkOptions {
  requireAll : option bool;
}.

(** Truthiness of [membership.can[permission]]. *)
Definition can_lookup (membership : MembershipSummary) (permission : Permission)
  : bool :=
  match JS.get (can membership) (Permission_value permission) with
  | JS.Own b => b
  | JS.Inherited _ => true
  | JS.Undefined => false
  end.

Definition hasPermission (permissions_ : Permission + list Permission)
    (membership : option MembershipSummary)
    (options : option PermissionCheckOptions) : bool :=
  match membership with
  | None => false
  | Some membership =>
      let targetPermissions :=
        match permissions_ with inl p => [p] | inr ps => ps end in
      let options := default {| requireAll := None |} options in
      let requireAll := default false (requireAll options) in
      if requireAll
      then forallb (can_lookup membership) targetPermissions
      else existsb (can_lookup membership) targetPermissions
  end.

Definition listPermissions (membership : option MembershipSummary)
  : list Permission :=
  match membership with
  | Some membership => permissions membership
  | None => []
  end.

(** [response.ok] *)
Definition response_ok (code : nat) : bool :=
  Nat.leb 200 code && Nat.leb code 299.

(** [fetchMembership], on the way the route ended.  A response that is not
    ok rejects with the [message] of its body when there is a non-empty
    one, and with "Failed to fetch membership" otherwise; an ok response
    resolves to its body, cast unchecked.  A route that threw, or answered
    nothing, reaches the client as the router's plain-text 500 or 404,
    whose body does not parse. *)
Definition fetchMembership (response : Middleware.Step MembershipSummary)
  : string + Middleware.Body MembershipSummary :=
  match response with
  | Middleware.Respond r =>
      if negb (response_ok (Middleware.res_status r)) then
        match Middleware.res_body r with
        | Middleware.Message message =>
            if JS.truthy (Some message) then inl message
            else inl "Failed to fetch membership"
        | Middleware.Data _ => inl "Failed to fetch membership"
        end
      else inr (Middleware.res_body r)
  | Middleware.Next | Middleware.Throw => inl "Failed to fetch membership"
  end.

End RbacClient.

(** ** [hooks/use-rbac.ts] *)

Module UseRbac.
Import Types.

(** The [can] callback of [useRBAC]: the client check on the fetched
    summary [swr.data], with the call's options when given and the hook's
    [permissionOptions] otherwise. *)
Definition can (data : option RbacClient.MembershipSummary)
    (permissionOptions : option RbacClient.PermissionCheckOptions)
    (permissions : Permission + list Permission)
    (override : option RbacClient.PermissionCheckOptions) : bool :=
  RbacClient.hasPermission permissions data
    (match override with
     | Some o => Some o
     | None => permissionOptions
     end).

(** The [hasRole] callback of [useRBAC]. *)
Definition hasRole (data : option RbacClient.MembershipSummary)
    (roles : string + list string) : bool :=
  RbacClient.hasRole roles data.

(** [swr.data?.role ?? null] *)
Definition role (data : option RbacClient.MembershipSummary) : option string :=
  match data with
  | Some membership => RbacClient.role membership
  | None => None
  end.

(** [swr.data?.permissions ?? []] *)
Definition permissions (data : option RbacClient.MembershipSummary)
  : list Permission :=
  match data with
  | Some membership => RbacClient.permissions membership
  | None => []
  end.

(** The [can] field of [usePermission(permissions, options)]. *)
Definition usePermission (data : option RbacClient.MembershipSummary)
    (permissions : Permission + list Permission)
    (permissionOptions : option RbacClient.PermissionCheckOptions) : bool :=
  can data permissionOptions permissions None.

End UseRbac.

(** ** [components/rbac/guards.tsx] *)

Module Guards.
Import Types.

(** [RequireRole]: what is rendered, [None] being [null].  The hook is
    called without options. *)
Definition RequireRole {N} (data : option RbacClient.MembershipSummary)
    (isLoading : bool) (role : string + list string)
    (children : N) (fallback loading : option N) : option N :=
  if isLoading then loading
  else if negb (UseRbac.hasRole data role) then fallback
  else Some children.

(** [RequirePermission]; [requireAll] defaults to [false]. *)
Definition RequirePermission {N} (data : option RbacClient.MembershipSummary)
    (isLoading : bool) (permission : Permission + list Permission)
    (requireAll : option bool)
    (children : N) (fallback loading : option N) : option N :=
  let requireAll := default false requireAll in
  if isLoading then loading
  else if negb (UseRbac.can data None permission
                  (Some {| RbacClient.requireAll := Some requireAll |}))
       then fallback
  else Some children.

End Guards.

(** ** [server/middleware.ts] *)

Module ServerMiddleware.
Import Middleware.

Definition privateRoutesMiddleware {D} (req : Request) : M (Step D) :=
  match getSession req with
  | None =>
      c_status 401;;
      c_json (Message "Unauthorized")
  | Some s =>
      c_set (set_user (user s));;
      c_set (set_session (session s));;
      mret Next
  end.

Definition postRoutesMiddleware {D} (req : Request) : M (Step D) :=
  match getSession req with
  | None =>
      c_status 401;;
      c_json (Message "Unauthorized")
  | Some s =>
      c_set (set_user (user s));;
      c_set (set_session (session s));;
      mret Next
  end.

End ServerMiddleware.

(** ** [modules/gym/index.ts]: inviting and removing members *)

Module Gym.
Import Types Permissions Context Middleware.

(** A row of the member table with its primary key. *)
Record Member : Set := mkMember {
  member_id : string;
  member_userId : string;
  member_organizationId : string;
  member_role : string;
}.

(** The row as the context guard reads it. *)
Definition row (m : Member) : MemberRow :=
  {| row_userId := member_userId m;
     row_organizationId := member_organizationId m;
     row_role := member_role m |}.

Record Invitation : Set := mkInvitation {
  invitation_id : string;
  invitation_organizationId : string;
  invitation_email : string;
  invitation_role : string;
  invitation_status : string;
  invitation_expiresAt : Z;
  invitation_inviterId : string;
}.

(** The validated body of the invite request: [role] passed
    [z.enum([Role.USER, Role.TRAINER, Role.OWNER])]. *)
Record InviteBody : Set := mkInviteBody {
  invite_email : string;
  invite_role : Role;
}.

(** The payloads of these routes that are not a plain [{ message }]. *)
Inductive Payload : Set :=
| Error (error : string)
| InvitationSent (invitation : Invitation) (message : string)
| ValidationFailed.

(** [return c.json(body, code)] *)
Definition c_json_status {D A} (body : Body D) (code : nat) (unchanged : A)
  : M (Step D * A) :=
  λ c, ((Respond (mkResponse code body), unchanged), c).

(** [zValidator("json", schema)]: answers 400 with its own result when
    the body does not validate, and continues otherwise. *)
Definition zValidator {B} (parsed : option B) : M (Step Payload) :=
  match parsed with
  | None => λ c, (Respond (mkResponse 400 (Data ValidationFailed)), c)
  | Some _ => mret Next
  end.

(** The router's dispatch for a handler that writes to a table: the
    table is [unchanged] unless the handler is reached. *)
Fixpoint serve {D A} (chain : list (M (Step D))) (handler : M (Step D * A))
    (unchanged : A) (c : Ctx) : Step D * A :=
  match chain with
  | [] => (handler c).1
  | m :: chain' =>
      match m c with
      | (Next, c') => serve chain' handler unchanged c'
      | (s, _) => (s, unchanged)
      end
  end.

(** The handler of [POST /members/invite].  [newId] is what [generateId]
    draws and [now] what [Date.now] reads. *)
Definition invite (invitations : list Invitation) (newId : string) (now : Z)
    (body : option InviteBody) : M (Step Payload * list Invitation) :=
  organizationId ← c_get var_organizationId;
  user ← c_get var_user;
  inviterRole ← c_get var_role;
  match user, body with
  | Some user, Some body =>
      if bool_decide (invite_role body = OWNER)
         && negb (bool_decide (inviterRole = Some (Role_value OWNER)))
      then c_json_status (Data (Error "Only owners can invite other owners"))
             403 invitations
      else if bool_decide (invite_role body = TRAINER)
              && bool_decide (inviterRole = Some (Role_value USER))
      then c_json_status (Data (Error "Users cannot invite trainers"))
             403 invitations
      else
        match organizationId with
        | Some organizationId =>
            let invitation :=
              {| invitation_id := newId;
                 invitation_organizationId := organizationId;
                 invitation_email := invite_email body;
                 invitation_role := Role_value (invite_role body);
                 invitation_status := "PENDING";
                 invitation_expiresAt := (now + 7 * 24 * 60 * 60 * 1000)%Z;
                 invitation_inviterId := id user |} in
            c_json_status (Data (InvitationSent invitation "Invitation sent"))
              201 (invitations ++ [invitation])%list
        | None => mret (Throw, invitations)
        end
  | _, _ => mret (Throw, invitations)
  end.

(** [.use(requireOrganizationContext)
     .post("/members/invite", requirePermission(INVITE_MEMBERS),
           zValidator(...), handler)] *)
Definition inviteRoute (req : Request) (members : list Member)
    (invitations : list Invitation) (newId : string) (now : Z)
    (body : option InviteBody) : Step Payload * list Invitation :=
  serve [ requireOrganizationContext req (row <$> members);
          requirePermission [INVITE_MEMBERS];
          zValidator body ]
        (invite invitations newId now body) invitations fresh.

(** [prisma.member.findFirst({ where: { userId, organizationId } })]; a
    field that is [undefined] in [where] does not constrain. *)
Definition findFirstWhere (members : list Member)
    (userId organizationId : option string) : option Member :=
  List.find
    (λ m, match userId with
          | Some u => String.eqb (member_userId m) u
          | None => true
          end
          && match organizationId with
             | Some o => String.eqb (member_organizationId m) o
             | None => true
             end)
    members.

(** [prisma.member.delete({ where: { id } })] *)
Definition deleteById (members : list Member) (i : string) : list Member :=
  filter (λ m, member_id m ≠ i) members.

(** The handler of [DELETE /members/:userId]. *)
Definition removeMember (members : list Member) (targetUserId : string)
  : M (Step Payload * list Member) :=
  organizationId ← c_get var_organizationId;
  removerRole ← c_get var_role;
  match findFirstWhere members (Some targetUserId) organizationId with
  | None => c_json_status (Data (Error "Member not found")) 404 members
  | Some targetMember =>
      if String.eqb (member_role targetMember) (Role_value OWNER)
         && negb (bool_decide (removerRole = Some (Role_value OWNER)))
      then c_json_status (Data (Error "Cannot remove owner")) 403 members
      else if String.eqb (member_role targetMember) (Role_value TRAINER)
              && bool_decide (removerRole = Some (Role_value USER))
      then c_json_status (Data (Error "Users cannot remove trainers"))
             403 members
      else
        λ c, ((Respond (mkResponse (status c)
                          (Message "Member removed successfully")),
               deleteById members (member_id targetMember)), c)
  end.

(** [.use(requireOrganizationContext)
     .delete("/members/:userId", requirePermission(REMOVE_MEMBERS),
             handler)] *)
Definition removeMemberRoute (req : Request) (members : list Member)
    (targetUserId : string) : Step Payload * list Member :=
  serve [ requireOrganizationContext req (row <$> members);
          requirePermission [REMOVE_MEMBERS] ]
        (removeMember members targetUserId) members fresh.

End Gym.

(** ** [modules/me/index.ts] *)

Module Me.
Import Types Context Middleware.

(** [prisma.organization.findUnique({ where: { id } })] *)
Definition findUnique (organizations : list RbacClient.Organization)
    (organizationId : option string) : option RbacClient.Organization :=
  match organizationId with
  | None => None
  | Some i =>
      List.find (λ o, String.eqb (RbacClient.org_id o) i) organizations
  end.

(** The handler of [GET /membership]. *)
Definition membership (organizations : list RbacClient.Organization)
  : M (Step RbacClient.MembershipSummary) :=
  organizationId ← c_get var_organizationId;
  role ← c_get var_role;
  member ← c_get var_member;
  user ← c_get var_user;
  let organization := findUnique organizations organizationId in
  match JS.get ROLE_PERMISSIONS (default "undefined" role) with
  | JS.Own permissions =>
      let can :=
        JS.fromEntries
          ((λ permission,
              (Permission_value permission,
               JS.includes permissions permission))
             <$> Permission_values) in
      c_json (Data {| RbacClient.user := user;
                      RbacClient.member := member;
                      RbacClient.organization := organization;
                      RbacClient.role := role;
                      RbacClient.permissions := permissions;
                      RbacClient.can := can |})
  | _ => mret Throw
  end.

(** [new Hono().use(requireOrganizationContext).get("/membership", ...)] *)
Definition meRoutes (req : Request) (members : list MemberRow)
    (organizations : list RbacClient.Organization)
  : Run RbacClient.MembershipSummary :=
  dispatch [requireOrganizationContext req members]
           (membership organizations) fresh.

End Me.

(** * The vocabulary of the statements *)

Section Vocabulary.
Import Types Permissions Context Middleware.

(** The row of the table for a declared role. *)
Definition permissionsOf (r : Role) : list Permission :=
  match r with
  | OWNER => OWNER_PERMISSIONS
  | TRAINER => TRAINER_PERMISSIONS
  | USER => USER_PERMISSIONS
  end.

(** The rank the [hierarchy] object gives a declared role. *)
Definition hierarchyRank (r : Role) : Z :=
  match r with
  | OWNER => 3
  | TRAINER => 2
  | USER => 1
  end.

(** The claim about unrecognized roles as the specification words it:
    nothing throws, the permission set is empty, and every predicate is
    false, [hasAllPermissions] on every list included. *)
Definition unrecognized_role_fails_closed (role : string) : Prop :=
  getRolePermissions role = JS.Own []
  ∧ (∀ p, hasPermission role p = JS.Ok false)
  ∧ (∀ L, hasAnyPermission role L = JS.Ok false)
  ∧ (∀ L, hasAllPermissions role L = JS.Ok false)
  ∧ (∀ other, hasRoleHierarchy role other = false)
  ∧ (∀ targetRole, canManageRole role targetRole = false)
  ∧ (∀ targetRole action, canPerformAction role targetRole action = false).

(** The requirement a guard is built from: a set of roles, or a list of
    permissions of which any, or all, must hold. *)
Inductive Requirement : Set :=
| RoleIn (allowedRoles : list Role)
| AnyOf (requiredPermissions : list Permission)
| AllOf (requiredPermissions : list Permission).

(** The middleware factory each requirement stands for. *)
Definition guard {D} (q : Requirement) : M (Step D) :=
  match q with
  | RoleIn allowedRoles => requireRole (Role_value <$> allowedRoles)
  | AnyOf requiredPermissions => requirePermission requiredPermissions
  | AllOf requiredPermissions => requireAllPermissions requiredPermissions
  end.

(** Whether a role meets a requirement, by the evaluator. *)
Definition satisfies (role : string) (q : Requirement) : JS.outcome bool :=
  match q with
  | RoleIn allowedRoles => JS.Ok (JS.includes (Role_value <$> allowedRoles) role)
  | AnyOf requiredPermissions => hasAnyPermission role requiredPermissions
  | AllOf requiredPermissions => hasAllPermissions role requiredPermissions
  end.

(** A route protected the way the repository composes its guards: the
    context guard first, then the stacked requirement guards, then the
    handler. *)
Definition protectedRoute {D} (req : Request) (members : list MemberRow)
    (qs : list Requirement) (handler : M (Step D)) : Run D :=
  dispatch (requireOrganizationContext req members :: (guard <$> qs))
           handler fresh.

(** A denial: the status and the [{ message }] body. *)
Definition deny {D} (code : nat) (message : string) : Step D :=
  Respond (mkResponse code (Message message)).

Definition with_status (code : nat) (c : Ctx) : Ctx :=
  {| status := code; variables := variables c |}.

(** The context after a successful resolution. *)
Definition resolved (c : Ctx) (s : Session) (organizationId : string)
    (member : OrganizationMember) : Ctx :=
  {| status := status c;
     variables :=
       set_member member
         (set_role (role member)
            (set_organizationId organizationId
               (set_session (session s)
                  (set_user (user s) (variables c))))) |}.

(** The message of the forbidden response of each requirement guard. *)
Definition denial_message (q : Requirement) : string :=
  match q with
  | RoleIn allowedRoles =>
      "Access denied. Required role: "
      ++ JS.join " or " (Role_value <$> allowedRoles)
  | AnyOf requiredPermissions =>
      "Access denied. Required permission: "
      ++ JS.join " or " (Permission_value <$> requiredPermissions)
  | AllOf requiredPermissions =>
      "Access denied. Required all permissions: "
      ++ JS.join " and " (Permission_value <$> requiredPermissions)
  end.

(** Whether a declared role meets a requirement. *)
Definition meets (r : Role) (q : Requirement) : bool :=
  match q with
  | RoleIn allowedRoles => JS.includes (Role_value <$> allowedRoles) (Role_value r)
  | AnyOf requiredPermissions =>
      existsb (JS.includes (permissionsOf r)) requiredPermissions
  | AllOf requiredPermissions =>
      forallb (JS.includes (permissionsOf r)) requiredPermissions
  end.

(** A sample request: a signed-in member of one organization whose role
    there is USER, and a handler that answers 200. *)
Definition sample_user : User :=
  {| id := "u1"; name := Some "Ada"; email := "ada@example.org";
     image := None |}.

Definition sample_request : Request :=
  {| getSession :=
       Some {| user := sample_user;
               session := {| activeOrganizationId := Some "org1" |} |};
     query := ∅;
     param := ∅ |}.

Definition sample_members : list MemberRow :=
  [ {| row_userId := "u1"; row_organizationId := "org1"; row_role := "USER" |} ].

Definition sample_handler : M (Step unit) := c_json (Data tt).

(** The summary the endpoint builds in a context whose role is [r]. *)
Definition summaryOf (organizations : list RbacClient.Organization)
    (c : Ctx) (r : Role) : RbacClient.MembershipSummary :=
  {| RbacClient.user := var_user (variables c);
     RbacClient.member := var_member (variables c);
     RbacClient.organization :=
       Me.findUnique organizations (var_organizationId (variables c));
     RbacClient.role := Some (Role_value r);
     RbacClient.permissions := permissionsOf r;
     RbacClient.can :=
       JS.fromEntries
         ((λ permission,
             (Permission_value permission,
              JS.includes (permissionsOf r) permission))
            <$> Permission_values) |}.

(** The options object [{ requireAll }]. *)
Definition withRequireAll (requireAll : bool)
  : option RbacClient.PermissionCheckOptions :=
  Some {| RbacClient.requireAll := Some requireAll |}.

(** Whether a role meets every requirement of a stack. *)
Definition admits (role : string) (qs : list Requirement) : bool :=
  forallb (λ q, match satisfies role q with
                | JS.Ok true => true
                | _ => false
                end) qs.

(** A sample member table: the sample user owns "org1", where there is a
    trainer too, and is a plain user of "org2". *)
Definition gym_members : list Gym.Member :=
  [ {| Gym.member_id := "m1"; Gym.member_userId := "u1";
       Gym.member_organizationId := "org1"; Gym.member_role := "OWNER" |};
    {| Gym.member_id := "m2"; Gym.member_userId := "u2";
       Gym.member_organizationId := "org1"; Gym.member_role := "TRAINER" |};
    {| Gym.member_id := "m3"; Gym.member_userId := "u1";
       Gym.member_organizationId := "org2"; Gym.member_role := "USER" |} ].

Definition trainer_context : Ctx :=
  {| status := 200;
     variables := {| var_user := None; var_session := None;
                     var_organizationId := Some "org1";
                     var_role := Some "TRAINER";
                     var_member := None |} |}.

End Vocabulary.

(** * Properties *)

(** ** The model and the evaluator *)

Section Evaluator.
Import Types Permissions.

Lemma Permission_values_complete (p : Permission) : p ∈ Permission_values.
Proof. destruct p; apply (bool_decide_unpack _); vm_compute; exact I. Qed.

Lemma Permission_value_inj : Inj (=) (=) Permission_value.
Proof. intros p q. destruct p, q; (reflexivity || discriminate). Qed.

Lemma isRole_declared (r : Role) : isRole (Role_value r) = true.
Proof. destruct r; reflexivity. Qed.

Lemma isRole_true (role : string) :
  isRole role = true → ∃ r : Role, role = Role_value r.
Proof.
  unfold isRole, JS.includes. intros H. apply bool_decide_eq_true_1 in H.
  apply list_elem_of_fmap in H as (r & -> & _). by exists r.
Qed.

Lemma isRole_false (role : string) :
  isRole role = false → ∀ r : Role, role ≠ Role_value r.
Proof.
  intros H r ->. by rewrite isRole_declared in H.
Qed.

Lemma ROLE_PERMISSIONS_declared (r : Role) :
  ROLE_PERMISSIONS !! Role_value r = Some (permissionsOf r).
Proof. destruct r; vm_compute; reflexivity. Qed.

Lemma ROLE_PERMISSIONS_unrecognized (role : string) :
  isRole role = false → ROLE_PERMISSIONS !! role = None.
Proof.
  intros H. pose proof (isRole_false _ H) as Hne. unfold ROLE_PERMISSIONS.
  rewrite !lookup_insert_ne by (intros E; eapply Hne; symmetry; exact E).
  apply lookup_empty.
Qed.

Lemma hierarchy_declared (r : Role) :
  hierarchy !! Role_value r = Some (hierarchyRank r).
Proof. destruct r; vm_compute; reflexivity. Qed.

Lemma hierarchy_unrecognized (role : string) :
  isRole role = false → hierarchy !! role = None.
Proof.
  intros H. pose proof (isRole_false _ H) as Hne. unfold hierarchy.
  rewrite !lookup_insert_ne by (intros E; eapply Hne; symmetry; exact E).
  apply lookup_empty.
Qed.

Lemma get_declared {A} (obj : gmap string A) (key : string) (v : A) :
  obj !! key = Some v → JS.get obj key = JS.Own v.
Proof. unfold JS.get. by intros ->. Qed.

Lemma get_absent {A} (obj : gmap string A) (key : string) :
  obj !! key = None → key ∉ JS.object_prototype_keys →
  JS.get obj key = JS.Undefined.
Proof.
  unfold JS.get. intros -> H. by rewrite bool_decide_eq_false_2.
Qed.

Lemma hasPermission_declared (r : Role) (p : Permission) :
  hasPermission (Role_value r) p = JS.Ok (JS.includes (permissionsOf r) p).
Proof.
  unfold hasPermission.
  by rewrite (get_declared _ _ _ (ROLE_PERMISSIONS_declared r)).
Qed.

Lemma some_total {A} (f : A → bool) (l : list A) :
  JS.some (λ x, JS.Ok (f x)) l = JS.Ok (existsb f l).
Proof.
  induction l as [|x l IH]; simpl; [reflexivity|].
  destruct (f x); [reflexivity | exact IH].
Qed.

Lemma every_total {A} (f : A → bool) (l : list A) :
  JS.every (λ x, JS.Ok (f x)) l = JS.Ok (forallb f l).
Proof.
  induction l as [|x l IH]; simpl; [reflexivity|].
  destruct (f x); [exact IH | reflexivity].
Qed.

Lemma some_ext {A} (f g : A → JS.outcome bool) (l : list A) :
  (∀ x, f x = g x) → JS.some f l = JS.some g l.
Proof. intros E. induction l as [|x l IH]; simpl; [done|]. by rewrite E, IH. Qed.

Lemma every_ext {A} (f g : A → JS.outcome bool) (l : list A) :
  (∀ x, f x = g x) → JS.every f l = JS.every g l.
Proof. intros E. induction l as [|x l IH]; simpl; [done|]. by rewrite E, IH. Qed.

Lemma hasAnyPermission_declared (r : Role) (L : list Permission) :
  hasAnyPermission (Role_value r) L
  = JS.Ok (existsb (JS.includes (permissionsOf r)) L).
Proof.
  unfold hasAnyPermission. rewrite <- some_total.
  apply some_ext, hasPermission_declared.
Qed.

Lemma hasAllPermissions_declared (r : Role) (L : list Permission) :
  hasAllPermissions (Role_value r) L
  = JS.Ok (forallb (JS.includes (permissionsOf r)) L).
Proof.
  unfold hasAllPermissions. rewrite <- every_total.
  apply every_ext, hasPermission_declared.
Qed.

Lemma hasRoleHierarchy_declared (r1 r2 : Role) :
  hasRoleHierarchy (Role_value r1) (Role_value r2)
  = bool_decide (hierarchyRank r2 ≤ hierarchyRank r1)%Z.
Proof.
  unfold hasRoleHierarchy.
  by rewrite !(get_declared _ _ _ (hierarchy_declared _)).
Qed.

(** C8.  On the empty permission list, for every role value,
    [hasAnyPermission] returns false and [hasAllPermissions] returns true. *)
Theorem empty_list_any_false_all_true (role : string) :
  hasAnyPermission role [] = JS.Ok false
  ∧ hasAllPermissions role [] = JS.Ok true.
Proof. split; reflexivity. Qed.

(** C6.  [canManageRole]: OWNER manages every role, OWNER included;
    TRAINER manages exactly USER; USER manages no role. *)
Theorem canManageRole_table (targetRole : Role) :
  canManageRole (Role_value OWNER) (Role_value targetRole) = true
  ∧ canManageRole (Role_value TRAINER) (Role_value targetRole)
    = bool_decide (targetRole = USER)
  ∧ canManageRole (Role_value USER) (Role_value targetRole) = false.
Proof. destruct targetRole; repeat split; reflexivity. Qed.

(** The scenario of the specification for [canManageRole]. *)
Example canManageRole_scenario :
  canManageRole "TRAINER" "TRAINER" = false
  ∧ canManageRole "TRAINER" "USER" = true
  ∧ canManageRole "OWNER" "OWNER" = true.
Proof. repeat split; reflexivity. Qed.

(** C5.  [canPerformAction] is false whenever the hierarchy check fails;
    when it holds, OWNER may perform every action on any target, TRAINER
    may perform exactly view and edit and only on USER, and every other
    combination is false. *)
Theorem canPerformAction_table (actorRole targetRole : Role) (action : Action) :
  (hasRoleHierarchy (Role_value actorRole) (Role_value targetRole) = false →
   canPerformAction (Role_value actorRole) (Role_value targetRole) action
   = false)
  ∧ (hasRoleHierarchy (Role_value actorRole) (Role_value targetRole) = true →
     canPerformAction (Role_value actorRole) (Role_value targetRole) action
     = match actorRole with
       | OWNER => true
       | TRAINER =>
           bool_decide (targetRole = USER)
           && bool_decide (action = view ∨ action = edit)
       | USER => false
       end).
Proof.
  split; intros H; unfold canPerformAction; rewrite H; simpl; [reflexivity|].
  destruct actorRole, targetRole, action; reflexivity.
Qed.

Lemma canPerformAction_table_witness :
  canPerformAction "TRAINER" "USER" edit = true
  ∧ canPerformAction "USER" "OWNER" view = false.
Proof.
  split.
  - exact (proj2 (canPerformAction_table TRAINER USER edit) eq_refl).
  - exact (proj1 (canPerformAction_table USER OWNER view) eq_refl).
Defined.

(** C10.  The table is monotone in the hierarchy rank: the permissions of
    USER are among those of TRAINER, which are among those of OWNER; and a
    permission held by a role is held by every role of at least its rank. *)
Theorem ROLE_PERMISSIONS_monotone :
  (∃ o t u,
     ROLE_PERMISSIONS !! Role_value OWNER = Some o
     ∧ ROLE_PERMISSIONS !! Role_value TRAINER = Some t
     ∧ ROLE_PERMISSIONS !! Role_value USER = Some u
     ∧ u ⊆ t ∧ t ⊆ o)
  ∧ ∀ (r1 r2 : Role) (p : Permission),
      hasRoleHierarchy (Role_value r1) (Role_value r2) = true →
      hasPermission (Role_value r2) p = JS.Ok true →
      hasPermission (Role_value r1) p = JS.Ok true.
Proof.
  assert (Hrow : ∀ r1 r2 p,
    (hierarchyRank r2 ≤ hierarchyRank r1)%Z →
    JS.includes (permissionsOf r2) p = true →
    JS.includes (permissionsOf r1) p = true).
  { intros r1 r2 p Hle.
    destruct r1, r2; try (exfalso; revert Hle; simpl; lia);
      destruct p; vm_compute; (reflexivity || discriminate || auto). }
  split.
  - exists OWNER_PERMISSIONS, TRAINER_PERMISSIONS, USER_PERMISSIONS.
    rewrite !ROLE_PERMISSIONS_declared. repeat split; intros p Hp.
    + apply (bool_decide_eq_true_1 _ (Hrow TRAINER USER p ltac:(simpl; lia)
               (bool_decide_eq_true_2 _ Hp))).
    + apply (bool_decide_eq_true_1 _ (Hrow OWNER TRAINER p ltac:(simpl; lia)
               (bool_decide_eq_true_2 _ Hp))).
  - intros r1 r2 p. rewrite hasRoleHierarchy_declared, !hasPermission_declared.
    intros Hle%bool_decide_eq_true_1 [= Hin]. f_equal. by eapply Hrow.
Qed.

Lemma ROLE_PERMISSIONS_monotone_witness :
  hasPermission "OWNER" VIEW_ANALYTICS = JS.Ok true.
Proof.
  apply (proj2 ROLE_PERMISSIONS_monotone OWNER TRAINER VIEW_ANALYTICS);
    reflexivity.
Defined.

(** C7, as stated, fails: "ADMIN" is no declared role, and
    [hasAllPermissions] on the empty list is true for it. *)
Lemma unrecognized_role_all_of_empty_list :
  isRole "ADMIN" = false ∧ ¬ unrecognized_role_fails_closed "ADMIN".
Proof.
  split; [reflexivity|].
  intros (_ & _ & _ & Hall & _). specialize (Hall []). discriminate Hall.
Qed.

(** A role string that names a member every object inherits is no declared
    role either; the table lookup then yields that member, and the
    permission check throws. *)
Lemma unrecognized_role_inherited_member :
  isRole "constructor" = false
  ∧ hasPermission "constructor" VIEW_WORKOUTS = JS.TypeError
  ∧ getRolePermissions "constructor" = JS.Inherited "constructor"
  ∧ hasRoleHierarchy "constructor" "constructor" = true.
Proof. repeat split; vm_compute; reflexivity. Qed.

(** An unrecognized role in target position is still managed by OWNER. *)
Lemma canManageRole_unrecognized_target (targetRole : string) :
  canManageRole (Role_value OWNER) targetRole = true.
Proof. reflexivity. Qed.

(** C7 (amended).  For a role value outside the declared set:
    [canManageRole] and [canPerformAction] are false with it as manager or
    actor; and when it is not the name of an inherited object member,
    [getRolePermissions] is empty, [hasPermission] and [hasAnyPermission]
    are false, [hasAllPermissions] is false on every non-empty list and
    true on the empty one, and [hasRoleHierarchy] is false with it on
    either side.  None of these throws. *)
Theorem unrecognized_role (role : string) :
  isRole role = false →
  ((∀ targetRole, canManageRole role targetRole = false)
   ∧ (∀ targetRole action, canPerformAction role targetRole action = false))
  ∧ (role ∉ JS.object_prototype_keys →
     getRolePermissions role = JS.Own []
     ∧ (∀ p, hasPermission role p = JS.Ok false)
     ∧ (∀ L, hasAnyPermission role L = JS.Ok false)
     ∧ (∀ L, L ≠ [] → hasAllPermissions role L = JS.Ok false)
     ∧ hasAllPermissions role [] = JS.Ok true
     ∧ (∀ other, hasRoleHierarchy role other = false
                 ∧ hasRoleHierarchy other role = false)).
Proof.
  intros Hrole.
  assert (Howner : String.eqb role (Role_value OWNER) = false)
    by (apply String.eqb_neq, (isRole_false _ Hrole OWNER)).
  assert (Htrainer : String.eqb role (Role_value TRAINER) = false)
    by (apply String.eqb_neq, (isRole_false _ Hrole TRAINER)).
  split.
  - split; intros; unfold canManageRole, canPerformAction;
      rewrite Howner, Htrainer; simpl; [reflexivity|].
    by destruct (negb _).
  - intros Hproto.
    pose proof (get_absent _ _ (ROLE_PERMISSIONS_unrecognized _ Hrole) Hproto)
      as Hget.
    assert (Hhas : ∀ p, hasPermission role p = JS.Ok false)
      by (intros p; unfold hasPermission; by rewrite Hget).
    split; [unfold getRolePermissions; by rewrite Hget|].
    split; [exact Hhas|].
    split.
    { intros L. unfold hasAnyPermission.
      induction L as [|p L IH]; simpl; [reflexivity|]. by rewrite Hhas. }
    split.
    { intros [|p L] HL; [done|]. unfold hasAllPermissions. simpl.
      by rewrite Hhas. }
    split; [reflexivity|].
    intros other. unfold hasRoleHierarchy.
    rewrite (get_absent _ _ (hierarchy_unrecognized _ Hrole) Hproto).
    split; [reflexivity|]. by destruct (JS.get hierarchy other).
Qed.

Lemma unrecognized_role_witness :
  canManageRole "ADMIN" "USER" = false
  ∧ hasAnyPermission "ADMIN" [VIEW_WORKOUTS; VIEW_SETTINGS] = JS.Ok false.
Proof.
  assert (Hrole : isRole "ADMIN" = false) by reflexivity.
  assert (Hproto : "ADMIN" ∉ JS.object_prototype_keys)
    by (apply (bool_decide_unpack _); vm_compute; exact I).
  split.
  - exact (proj1 (proj1 (unrecognized_role "ADMIN" Hrole)) "USER").
  - exact (proj1 (proj2 (proj2 (proj2 (unrecognized_role "ADMIN" Hrole) Hproto)))
             [VIEW_WORKOUTS; VIEW_SETTINGS]).
Defined.

End Evaluator.

(** ** The server guard *)

Section Guard.
Import Types Permissions Context Middleware.

Lemma requireOrganizationContext_cases {D} req members c :
  requireOrganizationContext (D:=D) req members c
  = match getSession req with
    | None => (deny 401 "Unauthorized", with_status 401 c)
    | Some s =>
        if JS.truthy (organizationHint req s) then
          let organizationId := default "" (organizationHint req s) in
          match getOrganizationMember members (id (user s)) organizationId with
          | None =>
              (deny 403 "User is not a member of this organization",
               with_status 403 c)
          | Some member => (Next, resolved c s organizationId member)
          end
        else (deny 400 "Organization ID is required", with_status 400 c)
    end.
Proof.
  unfold requireOrganizationContext.
  destruct (getSession req) as [s|]; [|reflexivity].
  destruct (JS.truthy (organizationHint req s)); simpl; [|reflexivity].
  destruct (getOrganizationMember _ _ _); reflexivity.
Qed.

Lemma getOrganizationMember_isRole members userId organizationId member :
  getOrganizationMember members userId organizationId = Some member →
  ∃ r : Role, role member = Role_value r.
Proof.
  unfold getOrganizationMember.
  destruct (findFirst _ _ _) as [row|]; [|discriminate].
  destruct (isRole (row_role row)) eqn:E; simpl; [|discriminate].
  intros [= <-]. simpl. by apply isRole_true.
Qed.

Lemma truthy_declared (r : Role) : JS.truthy (Some (Role_value r)) = true.
Proof. by destruct r. Qed.

(** A requirement guard, run with a declared role in the context, either
    passes and leaves the context as it is, or answers 403 with its
    message. *)
Lemma guard_cases {D} (q : Requirement) (r : Role) (c : Ctx) :
  var_role (variables c) = Some (Role_value r) →
  guard (D:=D) q c
  = match satisfies (Role_value r) q with
    | JS.Ok true => (Next, c)
    | JS.Ok false => (deny 403 (denial_message q), with_status 403 c)
    | JS.TypeError => (Throw, c)
    end.
Proof.
  intros Hr. destruct q as [rs|L|L]; simpl.
  - cbv [requireRole mbind M_bind c_get]. rewrite Hr, truthy_declared. simpl.
    by destruct (JS.includes _ _).
  - cbv [requirePermission mbind M_bind c_get]. rewrite Hr, truthy_declared.
    simpl. by destruct (hasAnyPermission _ _) as [[]|].
  - cbv [requireAllPermissions mbind M_bind c_get].
    rewrite Hr, truthy_declared. simpl.
    by destruct (hasAllPermissions _ _) as [[]|].
Qed.

Lemma satisfies_meets (r : Role) (q : Requirement) :
  satisfies (Role_value r) q = JS.Ok (meets r q).
Proof.
  destruct q; simpl;
    auto using hasAnyPermission_declared, hasAllPermissions_declared.
Qed.

(** The stacked requirement guards: the first unmet requirement answers,
    and the handler runs, once and on the unchanged context, only when
    there is none. *)
Lemma dispatch_guards {D} (qs : list Requirement) (handler : M (Step D))
    (r : Role) (c : Ctx) :
  var_role (variables c) = Some (Role_value r) →
  dispatch (guard <$> qs) handler c
  = match List.find (λ q, negb (meets r q)) qs with
    | Some q => mkRun (deny 403 (denial_message q)) (with_status 403 c) 0
    | None => let '(s, c') := handler c in mkRun s c' 1
    end.
Proof.
  intros Hr. induction qs as [|q qs IH]; [reflexivity|].
  cbn [fmap list_fmap dispatch List.find].
  change (list_fmap _ _ guard qs) with (guard (D:=D) <$> qs).
  rewrite (guard_cases q r c Hr), satisfies_meets.
  destruct (meets r q); simpl; [exact IH | reflexivity].
Qed.

Lemma protectedRoute_cases {D} req members qs (handler : M (Step D)) :
  protectedRoute req members qs handler
  = match getSession req with
    | None => mkRun (deny 401 "Unauthorized") (with_status 401 fresh) 0
    | Some s =>
        if JS.truthy (organizationHint req s) then
          let organizationId := default "" (organizationHint req s) in
          match getOrganizationMember members (id (user s)) organizationId with
          | None =>
              mkRun (deny 403 "User is not a member of this organization")
                    (with_status 403 fresh) 0
          | Some member =>
              dispatch (guard <$> qs) handler
                       (resolved fresh s organizationId member)
          end
        else mkRun (deny 400 "Organization ID is required")
                   (with_status 400 fresh) 0
    end.
Proof.
  unfold protectedRoute. cbn [dispatch].
  rewrite requireOrganizationContext_cases.
  destruct (getSession req) as [s|]; [|reflexivity].
  destruct (JS.truthy _); [|reflexivity]. cbn zeta.
  destruct (getOrganizationMember _ _ _); reflexivity.
Qed.

(** C3, as stated, fails for the all-of form: its denial does not carry
    the message of the table. *)
Lemma all_of_denial_message :
  outcome (protectedRoute sample_request sample_members
             [AllOf [MANAGE_MEMBERS]] sample_handler)
  = deny 403 "Access denied. Required all permissions: MANAGE_MEMBERS"
  ∧ outcome (protectedRoute sample_request sample_members
               [AllOf [MANAGE_MEMBERS]] sample_handler)
    ≠ deny 403 "Access denied. Required permission: MANAGE_MEMBERS".
Proof.
  assert (E : outcome (protectedRoute sample_request sample_members
                         [AllOf [MANAGE_MEMBERS]] sample_handler)
              = deny 403 "Access denied. Required all permissions: MANAGE_MEMBERS")
    by (vm_compute; reflexivity).
  split; [exact E|]. rewrite E. discriminate.
Qed.

(** C3 (amended).  The denial of a protected route carries: 401
    "Unauthorized" without a session; 400 "Organization ID is required"
    without an organization hint; 403 "User is not a member of this
    organization" without a membership; 403 "Access denied. Required role: "
    and the roles joined by " or " when the role is not allowed; 403 "Access
    denied. Required permission: " and the permissions joined by " or " when
    none of them is held; and 403 "Access denied. Required all permissions: "
    and the permissions joined by " and " when not all of them are held. *)
Theorem denial_responses {D} (req : Request) (members : list MemberRow)
    (handler : M (Step D)) :
  (getSession req = None →
   ∀ qs, outcome (protectedRoute req members qs handler)
         = deny 401 "Unauthorized")
  ∧ (∀ s, getSession req = Some s →
     (JS.truthy (organizationHint req s) = false →
      ∀ qs, outcome (protectedRoute req members qs handler)
            = deny 400 "Organization ID is required")
     ∧ (∀ organizationId,
        organizationHint req s = Some organizationId → organizationId ≠ "" →
        (getOrganizationMember members (id (user s)) organizationId = None →
         ∀ qs, outcome (protectedRoute req members qs handler)
               = deny 403 "User is not a member of this organization")
        ∧ (∀ member,
           getOrganizationMember members (id (user s)) organizationId
           = Some member →
           (∀ allowedRoles,
              JS.includes (Role_value <$> allowedRoles) (role member) = false →
              outcome (protectedRoute req members [RoleIn allowedRoles] handler)
              = deny 403 ("Access denied. Required role: "
                          ++ JS.join " or " (Role_value <$> allowedRoles)))
           ∧ (∀ requiredPermissions,
                hasAnyPermission (role member) requiredPermissions
                = JS.Ok false →
                outcome (protectedRoute req members
                           [AnyOf requiredPermissions] handler)
                = deny 403 ("Access denied. Required permission: "
                            ++ JS.join " or "
                                 (Permission_value <$> requiredPermissions)))
           ∧ (∀ requiredPermissions,
                hasAllPermissions (role member) requiredPermissions
                = JS.Ok false →
                outcome (protectedRoute req members
                           [AllOf requiredPermissions] handler)
                = deny 403 ("Access denied. Required all permissions: "
                            ++ JS.join " and "
                                 (Permission_value <$> requiredPermissions)))))).
Proof.
  split.
  { intros Hs qs. rewrite protectedRoute_cases. by rewrite Hs. }
  intros s Hs. split.
  { intros Hh qs. rewrite protectedRoute_cases. by rewrite Hs, Hh. }
  intros o Ho Hne.
  assert (Ht : JS.truthy (organizationHint req s) = true).
  { rewrite Ho. simpl. apply negb_true_iff, String.eqb_neq, Hne. }
  split.
  { intros Hm qs. rewrite protectedRoute_cases, Hs, Ht, Ho. simpl.
    by rewrite Hm. }
  intros member Hm.
  destruct (getOrganizationMember_isRole _ _ _ _ Hm) as [r Hr].
  assert (Hrun : ∀ q, satisfies (role member) q = JS.Ok false →
    outcome (protectedRoute req members [q] handler)
    = deny 403 (denial_message q)).
  { intros q Hq. rewrite protectedRoute_cases, Hs, Ht, Ho.
    cbn [from_option Datatypes.id]. cbn zeta. rewrite Hm.
    rewrite (dispatch_guards [q] handler r) by (simpl; by rewrite Hr).
    rewrite Hr, satisfies_meets in Hq. injection Hq as Hq.
    simpl. by rewrite Hq. }
  repeat split.
  - intros rs H. apply (Hrun (RoleIn rs)). simpl. by rewrite H.
  - intros L H. exact (Hrun (AnyOf L) H).
  - intros L H. exact (Hrun (AllOf L) H).
Qed.

Lemma denial_responses_witness :
  outcome (protectedRoute sample_request sample_members
             [AnyOf [MANAGE_MEMBERS; INVITE_MEMBERS]] sample_handler)
  = deny 403 "Access denied. Required permission: MANAGE_MEMBERS or INVITE_MEMBERS".
Proof.
  refine (proj1 (proj2
    (proj2 (proj2 (proj2 (denial_responses sample_request sample_members
                            sample_handler)
                     _ eq_refl)
              "org1" eq_refl _)
       _ eq_refl))
    [MANAGE_MEMBERS; INVITE_MEMBERS] eq_refl).
  discriminate.
Defined.

Local Ltac denied :=
  split; [reflexivity|]; eexists _, _; split; [reflexivity|];
  apply (bool_decide_unpack _); vm_compute; exact I.

(** C4.  Fail-closed sequencing: when there is no session, no
    organization hint, no membership, or a stacked requirement the resolved
    role does not meet, the handler is never entered and the route answers
    with a denial (401, 400 or 403 and a message). *)
Theorem fail_closed {D} (req : Request) (members : list MemberRow)
    (qs : list Requirement) (handler : M (Step D)) :
  getSession req = None
  ∨ (∃ s, getSession req = Some s
          ∧ JS.truthy (organizationHint req s) = false)
  ∨ (∃ s, getSession req = Some s
          ∧ getOrganizationMember members (id (user s))
              (default "" (organizationHint req s)) = None)
  ∨ (∃ s member q,
       getSession req = Some s
       ∧ getOrganizationMember members (id (user s))
           (default "" (organizationHint req s)) = Some member
       ∧ q ∈ qs
       ∧ satisfies (role member) q = JS.Ok false) →
  handler_calls (protectedRoute req members qs handler) = 0
  ∧ ∃ code message,
      outcome (protectedRoute req members qs handler) = deny code message
      ∧ code ∈ [401; 400; 403].
Proof.
  intros H. rewrite protectedRoute_cases.
  destruct (getSession req) as [s|] eqn:Hs.
  2: by denied.
  destruct (JS.truthy (organizationHint req s)) eqn:Ht.
  2: by denied.
  cbn zeta.
  destruct (getOrganizationMember _ _ _) as [member|] eqn:Hm.
  2: by denied.
  destruct H as [H|[(s' & H & Ht')|[(s' & H & Hm')|(s' & member' & q & H & Hm' & Hq & Hsat)]]];
    try discriminate H; injection H as <-; try congruence.
  rewrite Hm in Hm'. injection Hm' as <-.
  destruct (getOrganizationMember_isRole _ _ _ _ Hm) as [r Hr].
  rewrite (dispatch_guards qs handler r) by (simpl; by rewrite Hr).
  rewrite Hr, satisfies_meets in Hsat. injection Hsat as Hsat.
  destruct (List.find _ qs) as [q'|] eqn:Hfind.
  - by denied.
  - exfalso. apply list_elem_of_In in Hq.
    pose proof (find_none _ _ Hfind q Hq) as Hn. simpl in Hn.
    by rewrite Hsat in Hn.
Qed.

Lemma fail_closed_witness :
  handler_calls (protectedRoute sample_request sample_members
                   [AnyOf [VIEW_WORKOUTS]; RoleIn [OWNER; TRAINER]]
                   sample_handler) = 0.
Proof.
  refine (proj1 (fail_closed sample_request sample_members
                   [AnyOf [VIEW_WORKOUTS]; RoleIn [OWNER; TRAINER]]
                   sample_handler _)).
  right; right; right.
  eexists _, _, (RoleIn [OWNER; TRAINER]).
  split; [reflexivity|]. split; [reflexivity|].
  split; [|reflexivity]. apply list_elem_of_In. right; left. reflexivity.
Defined.

(** When every step passes, the handler is entered once, on the resolved
    context, and the route ends as the handler does. *)
Lemma allowed_runs_handler {D} (req : Request) (members : list MemberRow)
    (qs : list Requirement) (handler : M (Step D)) s member :
  getSession req = Some s →
  JS.truthy (organizationHint req s) = true →
  getOrganizationMember members (id (user s))
    (default "" (organizationHint req s)) = Some member →
  (∀ q, q ∈ qs → satisfies (role member) q = JS.Ok true) →
  let c := resolved fresh s (default "" (organizationHint req s)) member in
  protectedRoute req members qs handler
  = mkRun (handler c).1 (handler c).2 1.
Proof.
  intros Hs Ht Hm Hall c. rewrite protectedRoute_cases, Hs, Ht. cbn zeta.
  rewrite Hm. fold c.
  destruct (getOrganizationMember_isRole _ _ _ _ Hm) as [r Hr].
  rewrite (dispatch_guards qs handler r) by (simpl; by rewrite Hr).
  destruct (List.find _ qs) as [q|] eqn:Hfind.
  - apply find_some in Hfind as [Hin Hq]. apply list_elem_of_In in Hin.
    specialize (Hall q Hin). rewrite Hr, satisfies_meets in Hall.
    injection Hall as Hall. by rewrite Hall in Hq.
  - by destruct (handler c).
Qed.

Lemma organizationHint_find req s hint :
  List.find JS.truthy
    [ activeOrganizationId (session s);
      query req !! "organizationId";
      param req !! "organizationId" ] = Some hint →
  organizationHint req s = hint.
Proof.
  unfold organizationHint, JS.or. cbn [List.find].
  destruct (JS.truthy (activeOrganizationId (session s))) eqn:Ha.
  { rewrite Ha. by intros [= <-]. }
  destruct (JS.truthy (query req !! "organizationId")) eqn:Hq.
  { by intros [= <-]. }
  destruct (JS.truthy (param req !! "organizationId")); [|discriminate].
  by intros [= <-].
Qed.

Lemma organizationHint_none req s :
  List.find JS.truthy
    [ activeOrganizationId (session s);
      query req !! "organizationId";
      param req !! "organizationId" ] = None →
  JS.truthy (organizationHint req s) = false.
Proof.
  unfold organizationHint, JS.or. cbn [List.find].
  destruct (JS.truthy (activeOrganizationId (session s))) eqn:Ha; [discriminate|].
  destruct (JS.truthy (query req !! "organizationId")) eqn:Hq; [discriminate|].
  destruct (JS.truthy (param req !! "organizationId")) eqn:Hp; [discriminate|].
  done.
Qed.

(** C9.  With a session, the organization identifier the guard resolves is
    the first non-empty one among the session's active organization, the
    query parameter and the path parameter, in this order; the membership
    is looked up for it and it is what the context records.  When all
    three are empty the guard answers 400 "Organization ID is required". *)
Theorem organization_hint_precedence {D} (req : Request)
    (members : list MemberRow) (c : Ctx) (s : Session) :
  getSession req = Some s →
  match List.find JS.truthy
          [ activeOrganizationId (session s);
            query req !! "organizationId";
            param req !! "organizationId" ] with
  | Some hint =>
      organizationHint req s = hint
      ∧ ∃ organizationId,
          hint = Some organizationId ∧ organizationId ≠ ""
          ∧ match getOrganizationMember members (id (user s)) organizationId with
            | Some member =>
                ∃ c', requireOrganizationContext (D:=D) req members c = (Next, c')
                      ∧ var_organizationId (variables c') = Some organizationId
                      ∧ var_member (variables c') = Some member
                      ∧ var_role (variables c') = Some (role member)
            | None =>
                (requireOrganizationContext (D:=D) req members c).1
                = deny 403 "User is not a member of this organization"
            end
  | None =>
      (requireOrganizationContext (D:=D) req members c).1
      = deny 400 "Organization ID is required"
  end.
Proof.
  intros Hs. rewrite requireOrganizationContext_cases, Hs.
  destruct (List.find _ _) as [hint|] eqn:Hfind.
  - pose proof (organizationHint_find _ _ _ Hfind) as Hh.
    apply find_some in Hfind as [_ Ht]. rewrite Hh, Ht.
    split; [reflexivity|].
    destruct hint as [o|]; [|discriminate Ht]. exists o.
    split; [reflexivity|]. split; [by intros ->|]. simpl.
    destruct (getOrganizationMember _ _ _) as [member|];
      [eexists; repeat split; reflexivity | reflexivity].
  - by rewrite (organizationHint_none _ _ Hfind).
Qed.

Lemma organization_hint_precedence_witness :
  organizationHint
    {| getSession := Some {| user := sample_user;
                             session := {| activeOrganizationId := Some "" |} |};
       query := {[ "organizationId" := "org1" ]};
       param := {[ "organizationId" := "org2" ]} |}
    {| user := sample_user; session := {| activeOrganizationId := Some "" |} |}
  = Some "org1".
Proof.
  exact (proj1 (organization_hint_precedence (D:=unit)
                  {| getSession := Some {| user := sample_user;
                                           session := {| activeOrganizationId := Some "" |} |};
                     query := {[ "organizationId" := "org1" ]};
                     param := {[ "organizationId" := "org2" ]} |}
                  sample_members fresh _ eq_refl)).
Defined.

End Guard.

(** ** The membership summary and the client-side mirror *)

Section Mirror.
Import Types Permissions Context Middleware.

Lemma fromEntries_lookup {A B} `{EqDecision A} (k : A → string) (f : A → B)
    (l : list A) (acc : gmap string B) (q : A) :
  Inj (=) (=) k →
  foldl (λ obj e, <[e.1 := e.2]> obj) acc ((λ x, (k x, f x)) <$> l) !! k q
  = if bool_decide (q ∈ l) then Some (f q) else acc !! k q.
Proof.
  intros Hinj. revert acc.
  induction l as [|x l IH]; intros acc; [reflexivity|].
  cbn [fmap list_fmap foldl]. change (list_fmap _ _ ?g l) with (g <$> l).
  rewrite IH. cbn [fst snd].
  destruct (decide (q ∈ l)) as [Hin|Hin].
  - rewrite !bool_decide_eq_true_2; [done | by right | done].
  - rewrite (bool_decide_eq_false_2 (q ∈ l)) by done.
    destruct (decide (q = x)) as [->|Hne].
    + rewrite bool_decide_eq_true_2 by left. apply lookup_insert_eq.
    + rewrite bool_decide_eq_false_2.
      * apply lookup_insert_ne. intros E. by apply Hne, Hinj.
      * intros [?|?]%elem_of_cons; done.
Qed.

Lemma fromEntries_dom {B} (entries : list (string * B)) (acc : gmap string B) :
  dom (foldl (λ obj e, <[e.1 := e.2]> obj) acc entries)
  = dom acc ∪ list_to_set (entries.*1).
Proof.
  revert acc. induction entries as [|e entries IH]; intros acc.
  - simpl. by rewrite (right_id_L ∅ (∪)).
  - cbn [foldl]. rewrite IH, dom_insert_L. cbn [fmap list_fmap list_to_set].
    by rewrite (assoc_L (∪)), (comm_L (∪) (dom acc)).
Qed.

Lemma can_summaryOf organizations c r (p : Permission) :
  RbacClient.can (summaryOf organizations c r) !! Permission_value p
  = Some (JS.includes (permissionsOf r) p).
Proof.
  unfold summaryOf, JS.fromEntries. cbn [RbacClient.can].
  rewrite (fromEntries_lookup Permission_value) by apply Permission_value_inj.
  by rewrite bool_decide_eq_true_2 by apply Permission_values_complete.
Qed.

Lemma can_lookup_summaryOf organizations c r (p : Permission) :
  RbacClient.can_lookup (summaryOf organizations c r) p
  = JS.includes (permissionsOf r) p.
Proof.
  unfold RbacClient.can_lookup, JS.get. by rewrite can_summaryOf.
Qed.

Lemma membership_declared organizations (c : Ctx) (r : Role) :
  var_role (variables c) = Some (Role_value r) →
  Me.membership organizations c
  = (Respond (mkResponse (status c) (Data (summaryOf organizations c r))), c).
Proof.
  intros Hr. cbv [Me.membership mbind M_bind c_get]. rewrite Hr.
  cbn [from_option Datatypes.id].
  rewrite (get_declared _ _ _ (ROLE_PERMISSIONS_declared r)).
  reflexivity.
Qed.

Lemma client_hasPermission_summaryOf organizations c r L (requireAll : bool) :
  RbacClient.hasPermission (inr L) (Some (summaryOf organizations c r))
    (withRequireAll requireAll)
  = meets r (if requireAll then AllOf L else AnyOf L).
Proof.
  unfold RbacClient.hasPermission, withRequireAll.
  cbn [from_option Datatypes.id RbacClient.requireAll]. cbn zeta.
  destruct requireAll; cbn [meets].
  - induction L as [|p L IH]; cbn [forallb]; [done|].
    by rewrite can_lookup_summaryOf, IH.
  - induction L as [|p L IH]; cbn [existsb]; [done|].
    by rewrite can_lookup_summaryOf, IH.
Qed.

(** Every summary the route answers with is the summary of the role the
    context guard resolved for this subject and organization. *)
Lemma meRoutes_summary req members organizations code m :
  outcome (Me.meRoutes req members organizations)
  = Respond (mkResponse code (Data m)) →
  ∃ s member r,
    getSession req = Some s
    ∧ JS.truthy (organizationHint req s) = true
    ∧ getOrganizationMember members (id (user s))
        (default "" (organizationHint req s)) = Some member
    ∧ role member = Role_value r
    ∧ code = 200
    ∧ m = summaryOf organizations
            (resolved fresh s (default "" (organizationHint req s)) member) r.
Proof.
  change (Me.meRoutes req members organizations)
    with (protectedRoute req members [] (Me.membership organizations)).
  rewrite protectedRoute_cases.
  destruct (getSession req) as [s|] eqn:Hs; [|discriminate].
  destruct (JS.truthy (organizationHint req s)) eqn:Ht; [|discriminate].
  cbn zeta.
  destruct (getOrganizationMember _ _ _) as [member|] eqn:Hm; [|discriminate].
  destruct (getOrganizationMember_isRole _ _ _ _ Hm) as [r Hr].
  cbn [fmap list_fmap dispatch].
  rewrite (membership_declared _ _ r) by (simpl; by rewrite Hr).
  cbn [outcome]. intros [= Hcode Hsum]. by exists s, member, r.
Qed.

(** C2.  For every role, the summary the endpoint builds has exactly the
    role's row of the table as [permissions], and its [can] map has an
    entry for every permission of the enumeration, and for nothing else,
    whose value tells whether [permissions] includes it. *)
Theorem membership_summary_invariant organizations (c : Ctx) (r : Role) :
  var_role (variables c) = Some (Role_value r) →
  ∃ m,
    Me.membership organizations c
    = (Respond (mkResponse (status c) (Data m)), c)
    ∧ RbacClient.role m = Some (Role_value r)
    ∧ ROLE_PERMISSIONS !! Role_value r = Some (RbacClient.permissions m)
    ∧ (∀ p : Permission,
         RbacClient.can m !! Permission_value p
         = Some (JS.includes (RbacClient.permissions m) p))
    ∧ dom (RbacClient.can m)
      = list_to_set (Permission_value <$> Permission_values).
Proof.
  intros Hr. exists (summaryOf organizations c r).
  split; [by apply membership_declared|].
  split; [reflexivity|].
  split; [apply ROLE_PERMISSIONS_declared|].
  split; [apply can_summaryOf|].
  unfold summaryOf, JS.fromEntries. cbn [RbacClient.can].
  rewrite fromEntries_dom, dom_empty_L, (left_id_L ∅ (∪)).
  by rewrite <- list_fmap_compose.
Qed.

Lemma membership_summary_invariant_witness :
  ∃ m, (Me.membership [] trainer_context).1
       = Respond (mkResponse 200 (Data m))
       ∧ RbacClient.can m !! "MANAGE_MEMBERS" = Some false
       ∧ RbacClient.can m !! "CREATE_WORKOUTS" = Some true.
Proof.
  destruct (membership_summary_invariant [] trainer_context TRAINER eq_refl)
    as (m & Hrun & _ & Hperms & Hcan & _).
  exists m. split; [by rewrite Hrun|].
  injection Hperms as Hperms.
  split.
  - etrans; [exact (Hcan MANAGE_MEMBERS)|]. rewrite <- Hperms. reflexivity.
  - etrans; [exact (Hcan CREATE_WORKOUTS)|]. rewrite <- Hperms. reflexivity.
Defined.

(** C1.  Cross-boundary consistency.  For every role and permission list,
    the server evaluator ([hasAllPermissions] when [requireAll] is set,
    [hasAnyPermission] otherwise) returns what the client's [hasPermission]
    returns on the summary built for that role.  And for every request
    whose summary the client fetched, a route guarded by a permission
    requirement enters its handler exactly when the hook's [can] on that
    summary holds. *)
Theorem cross_boundary_consistency :
  (∀ (r : Role) (c : Ctx) organizations,
     var_role (variables c) = Some (Role_value r) →
     ∃ m,
       (Me.membership organizations c).1
       = Respond (mkResponse (status c) (Data m))
       ∧ ∀ (L : list Permission) (requireAll : bool),
           (if requireAll then hasAllPermissions (Role_value r) L
            else hasAnyPermission (Role_value r) L)
           = JS.Ok (RbacClient.hasPermission (inr L) (Some m)
                      (withRequireAll requireAll)))
  ∧ (∀ req members organizations code m,
       outcome (Me.meRoutes req members organizations)
       = Respond (mkResponse code (Data m)) →
       ∀ D (handler : M (Step D)) (L : list Permission) (requireAll : bool),
         handler_calls
           (protectedRoute req members
              [if requireAll then AllOf L else AnyOf L] handler)
         = if UseRbac.can (Some m) None (inr L) (withRequireAll requireAll)
           then 1 else 0).
Proof.
  split.
  - intros r c organizations Hr. exists (summaryOf organizations c r).
    rewrite (membership_declared _ _ _ Hr). split; [reflexivity|].
    intros L requireAll. rewrite client_hasPermission_summaryOf.
    destruct requireAll;
      [apply hasAllPermissions_declared | apply hasAnyPermission_declared].
  - intros req members organizations code m Hm D handler L requireAll.
    apply meRoutes_summary in Hm
      as (s & member & r & Hs & Ht & Hmem & Hr & _ & ->).
    change (UseRbac.can ?d None ?ps (withRequireAll ?b))
      with (RbacClient.hasPermission ps d (withRequireAll b)).
    rewrite client_hasPermission_summaryOf.
    rewrite protectedRoute_cases, Hs, Ht. cbn zeta. rewrite Hmem.
    rewrite (dispatch_guards _ handler r) by (simpl; by rewrite Hr).
    cbn [List.find].
    destruct (meets r _); simpl; [|reflexivity].
    by destruct (handler _).
Qed.

Lemma cross_boundary_consistency_witness :
  ∃ m, outcome (Me.meRoutes sample_request sample_members [])
       = Respond (mkResponse 200 (Data m))
       ∧ handler_calls
           (protectedRoute sample_request sample_members
              [AnyOf [MANAGE_MEMBERS; VIEW_WORKOUTS]] sample_handler)
         = (if UseRbac.can (Some m) None (inr [MANAGE_MEMBERS; VIEW_WORKOUTS])
                 (withRequireAll false)
            then 1 else 0).
Proof.
  eexists. split; [vm_compute; reflexivity|].
  exact (proj2 cross_boundary_consistency sample_request sample_members []
           200 _ eq_refl unit sample_handler
           [MANAGE_MEMBERS; VIEW_WORKOUTS] false).
Defined.

End Mirror.

(** ** Further properties of the model and the evaluator *)

Section EvaluatorMore.
Import Types Permissions.

Lemma hierarchy_isRole (role : string) (n : Z) :
  hierarchy !! role = Some n → isRole role = true.
Proof.
  intros H. destruct (isRole role) eqn:E; [reflexivity|].
  by rewrite (hierarchy_unrecognized _ E) in H.
Qed.

(** X1.  On the declared roles [hasRoleHierarchy] is a total order:
    reflexive, transitive, antisymmetric and total, with OWNER above every
    role and every role above USER. *)
Theorem hasRoleHierarchy_total_order :
  (∀ r : Role, hasRoleHierarchy (Role_value r) (Role_value r) = true)
  ∧ (∀ r1 r2 r3 : Role,
       hasRoleHierarchy (Role_value r1) (Role_value r2) = true →
       hasRoleHierarchy (Role_value r2) (Role_value r3) = true →
       hasRoleHierarchy (Role_value r1) (Role_value r3) = true)
  ∧ (∀ r1 r2 : Role,
       hasRoleHierarchy (Role_value r1) (Role_value r2) = true →
       hasRoleHierarchy (Role_value r2) (Role_value r1) = true →
       r1 = r2)
  ∧ (∀ r1 r2 : Role,
       hasRoleHierarchy (Role_value r1) (Role_value r2) = true
       ∨ hasRoleHierarchy (Role_value r2) (Role_value r1) = true)
  ∧ (∀ r : Role,
       hasRoleHierarchy (Role_value OWNER) (Role_value r) = true
       ∧ hasRoleHierarchy (Role_value r) (Role_value USER) = true).
Proof.
  repeat split.
  - by intros [].
  - intros r1 r2 r3. rewrite !hasRoleHierarchy_declared.
    intros H1%bool_decide_eq_true_1 H2%bool_decide_eq_true_1.
    apply bool_decide_eq_true_2. lia.
  - intros r1 r2. rewrite !hasRoleHierarchy_declared.
    intros H1%bool_decide_eq_true_1 H2%bool_decide_eq_true_1.
    destruct r1, r2; simpl in *; (reflexivity || lia).
  - intros r1 r2. rewrite !hasRoleHierarchy_declared.
    destruct (decide (hierarchyRank r2 ≤ hierarchyRank r1)%Z).
    + left. by apply bool_decide_eq_true_2.
    + right. apply bool_decide_eq_true_2. lia.
  - by destruct r.
  - by destruct r.
Qed.

Lemma hasRoleHierarchy_total_order_witness :
  hasRoleHierarchy "OWNER" "USER" = true.
Proof.
  exact (proj1 (proj2 hasRoleHierarchy_total_order) OWNER TRAINER USER
           eq_refl eq_refl).
Defined.

(** X2.  OWNER holds every permission of the enumeration: for OWNER an
    all-of check passes on every list, and an any-of check on every list
    but the empty one. *)
Theorem owner_holds_every_permission (L : list Permission) :
  (∀ p : Permission, hasPermission (Role_value OWNER) p = JS.Ok true)
  ∧ hasAllPermissions (Role_value OWNER) L = JS.Ok true
  ∧ hasAnyPermission (Role_value OWNER) L
    = JS.Ok (negb (bool_decide (L = []))).
Proof.
  assert (H : ∀ p, hasPermission (Role_value OWNER) p = JS.Ok true)
    by (intros p; destruct p; vm_compute; reflexivity).
  split; [exact H|]. split.
  - unfold hasAllPermissions. induction L as [|p L IH]; simpl; [done|].
    by rewrite H.
  - unfold hasAnyPermission. destruct L as [|p L]; simpl; [done|].
    by rewrite H.
Qed.

(** X3.  On the declared roles the two authority relations agree where
    they overlap: a role can manage another exactly when it can view it,
    and exactly when it can edit it; and whoever can perform any action on
    a role can manage it. *)
Theorem canManageRole_canPerformAction (actorRole targetRole : Role) :
  canManageRole (Role_value actorRole) (Role_value targetRole)
  = canPerformAction (Role_value actorRole) (Role_value targetRole) view
  ∧ canManageRole (Role_value actorRole) (Role_value targetRole)
    = canPerformAction (Role_value actorRole) (Role_value targetRole) edit
  ∧ ∀ action,
      canPerformAction (Role_value actorRole) (Role_value targetRole) action
      = true →
      canManageRole (Role_value actorRole) (Role_value targetRole) = true.
Proof.
  destruct actorRole, targetRole; repeat split; try reflexivity;
    intros []; vm_compute; auto.
Qed.

Lemma canManageRole_canPerformAction_witness :
  canManageRole "OWNER" "TRAINER" = true.
Proof.
  exact (proj2 (proj2 (canManageRole_canPerformAction OWNER TRAINER))
           delete_ eq_refl).
Defined.

(** X4.  Whatever strings it is given, [canPerformAction] grants an action
    only between declared roles, and grants delete and manage to OWNER
    only. *)
Theorem canPerformAction_grants (actorRole targetRole : string)
    (action : Action) :
  canPerformAction actorRole targetRole action = true →
  isRole actorRole = true
  ∧ isRole targetRole = true
  ∧ (action = delete_ ∨ action = manage → actorRole = Role_value OWNER).
Proof.
  unfold canPerformAction.
  destruct (hasRoleHierarchy actorRole targetRole) eqn:Hh; [|discriminate].
  cbn [negb]. intros H.
  assert (Hactor : isRole actorRole = true
                   ∧ (action = delete_ ∨ action = manage →
                      actorRole = Role_value OWNER)).
  { destruct (String.eqb actorRole (Role_value OWNER)) eqn:Ho.
    - apply String.eqb_eq in Ho as ->. by split.
    - destruct (String.eqb actorRole (Role_value TRAINER)) eqn:Ht;
        [|discriminate H].
      apply String.eqb_eq in Ht as ->. split; [reflexivity|].
      destruct (String.eqb targetRole (Role_value USER)); [|discriminate H].
      intros [->| ->]; discriminate H. }
  destruct Hactor as [Hactor Hdel]. repeat split; [exact Hactor| |exact Hdel].
  apply isRole_true in Hactor as [r ->].
  unfold hasRoleHierarchy in Hh.
  rewrite (get_declared _ _ _ (hierarchy_declared r)) in Hh.
  unfold JS.get in Hh.
  destruct (hierarchy !! targetRole) as [n|] eqn:Ht.
  - by eapply hierarchy_isRole.
  - by destruct (bool_decide _).
Qed.

Lemma canPerformAction_grants_witness :
  isRole "OWNER" = true ∧ isRole "TRAINER" = true.
Proof.
  destruct (canPerformAction_grants "OWNER" "TRAINER" manage eq_refl)
    as (H1 & H2 & _).
  exact (conj H1 H2).
Defined.

(** X5.  The type guards accept exactly the wire values of the
    enumerations, and distinct members have distinct wire values. *)
Theorem type_guards_exact (value : string) :
  (isRole value = true ↔ ∃ r : Role, value = Role_value r)
  ∧ (isPermission value = true ↔ ∃ p : Permission, value = Permission_value p)
  ∧ Inj (=) (=) Role_value
  ∧ Inj (=) (=) Permission_value.
Proof.
  split; [|split; [|split]].
  - split; [apply isRole_true|]. intros [r ->]. apply isRole_declared.
  - unfold isPermission, JS.includes. rewrite bool_decide_eq_true.
    rewrite list_elem_of_fmap. split.
    + intros (p & -> & _). by exists p.
    + intros [p ->]. exists p. split; [done|apply Permission_values_complete].
  - intros r1 r2. destruct r1, r2; (reflexivity || discriminate).
  - apply Permission_value_inj.
Qed.

End EvaluatorMore.

(** ** The membership store queries *)

Section StoreQueries.
Import Types Context.

#[local] Instance OrganizationMember_eq_dec : EqDecision OrganizationMember.
Proof. solve_decision. Defined.

Lemma findFirst_Some members u o row :
  findFirst members u o = Some row →
  row ∈ members ∧ row_userId row = u ∧ row_organizationId row = o.
Proof.
  unfold findFirst. intros [Hin Hp]%find_some.
  apply andb_true_iff in Hp as [Hu%String.eqb_eq Ho%String.eqb_eq].
  by rewrite list_elem_of_In.
Qed.

Lemma findFirst_None members u o row :
  findFirst members u o = None → row ∈ members →
  ¬ (row_userId row = u ∧ row_organizationId row = o).
Proof.
  unfold findFirst. intros Hnone Hin%list_elem_of_In [Hu Ho].
  pose proof (find_none _ _ Hnone row Hin) as Hp. simpl in Hp.
  apply andb_false_iff in Hp as [Hp%String.eqb_neq|Hp%String.eqb_neq]; done.
Qed.

(** X6.  A member returned for a subject and an organization is theirs:
    it carries the identifiers asked for and a declared role, and the
    store holds that very row. *)
Theorem getOrganizationMember_sound members u o m :
  getOrganizationMember members u o = Some m →
  userId m = u
  ∧ organizationId m = o
  ∧ isRole (role m) = true
  ∧ {| row_userId := u; row_organizationId := o; row_role := role m |}
    ∈ members.
Proof.
  unfold getOrganizationMember.
  destruct (findFirst members u o) as [row|] eqn:Hf; [|discriminate].
  destruct (isRole (row_role row)) eqn:Hr; [|discriminate]. cbn [negb].
  intros [= <-]. cbn [userId organizationId role].
  apply findFirst_Some in Hf as (Hin & <- & <-).
  repeat split; [exact Hr|]. by destruct row.
Qed.

Lemma getOrganizationMember_sound_witness :
  isRole "TRAINER" = true.
Proof.
  exact (proj1 (proj2 (proj2
    (getOrganizationMember_sound
       [ {| row_userId := "u1"; row_organizationId := "o1";
            row_role := "TRAINER" |} ]
       "u1" "o1"
       {| userId := "u1"; organizationId := "o1"; role := "TRAINER" |}
       eq_refl)))).
Defined.

(** X7.  The three queries of a subject's membership agree: the role
    query returns the role of the member query; and the membership test
    holds exactly when the member query succeeds or the first row found
    carries a role that is not declared. *)
Theorem store_queries_agree members u o :
  getUserRoleInOrganization members u o
  = role <$> getOrganizationMember members u o
  ∧ (isOrganizationMember members u o = true
     ↔ is_Some (getOrganizationMember members u o)
       ∨ ∃ row, findFirst members u o = Some row
                ∧ isRole (row_role row) = false).
Proof.
  unfold getUserRoleInOrganization, getOrganizationMember,
    isOrganizationMember.
  destruct (findFirst members u o) as [row|]; simpl.
  - destruct (isRole (row_role row)) eqn:Hr; simpl.
    + split; [reflexivity|]. split; [by left|done].
    + split; [reflexivity|]. split; [|done]. right. by exists row.
  - split; [reflexivity|]. split; [discriminate|].
    intros [[? [=]]|(? & [=] & _)].
Qed.

(** A row whose role is not declared: the membership test holds, and the
    member query finds nobody. *)
Example unvalidated_row_is_no_member :
  isOrganizationMember
    [ {| row_userId := "u1"; row_organizationId := "o1"; row_role := "admin" |} ]
    "u1" "o1" = true
  ∧ getOrganizationMember
      [ {| row_userId := "u1"; row_organizationId := "o1"; row_role := "admin" |} ]
      "u1" "o1" = None.
Proof. split; reflexivity. Qed.

Lemma getUserOrganizations_elem members u m :
  m ∈ getUserOrganizations members u
  ↔ ∃ row, row ∈ members ∧ row_userId row = u ∧ isRole (row_role row) = true
           ∧ m = {| userId := row_userId row;
                    organizationId := row_organizationId row;
                    role := row_role row |}.
Proof.
  unfold getUserOrganizations. rewrite list_elem_of_fmap. split.
  - intros (row & -> & Hin). exists row.
    apply list_elem_of_filter in Hin as [Hr Hin].
    apply list_elem_of_filter in Hin as [Hu Hin]. done.
  - intros (row & Hin & Hu & Hr & ->). exists row. split; [done|].
    apply list_elem_of_filter. split; [done|].
    apply list_elem_of_filter. done.
Qed.

(** X8.  Every organization listed for a subject is theirs and carries a
    declared role; and whatever the member query returns for the subject
    and some organization is among the organizations listed. *)
Theorem getUserOrganizations_members members u :
  (∀ m, m ∈ getUserOrganizations members u →
        userId m = u ∧ isRole (role m) = true)
  ∧ (∀ o m, getOrganizationMember members u o = Some m →
            m ∈ getUserOrganizations members u).
Proof.
  split.
  - intros m (row & _ & Hu & Hr & ->)%getUserOrganizations_elem. done.
  - intros o m Hm. apply getUserOrganizations_elem.
    unfold getOrganizationMember in Hm.
    destruct (findFirst members u o) as [row|] eqn:Hf; [|discriminate].
    destruct (isRole (row_role row)) eqn:Hr; [|discriminate].
    injection Hm as <-. apply findFirst_Some in Hf as (Hin & Hu & _).
    by exists row.
Qed.

Lemma getUserOrganizations_members_witness :
  {| userId := "u1"; organizationId := "o2"; role := "USER" |}
  ∈ getUserOrganizations
      [ {| row_userId := "u1"; row_organizationId := "o1"; row_role := "OWNER" |};
        {| row_userId := "u2"; row_organizationId := "o2"; row_role := "OWNER" |};
        {| row_userId := "u1"; row_organizationId := "o2"; row_role := "USER" |} ]
      "u1".
Proof.
  exact (proj2 (getUserOrganizations_members
                  [ {| row_userId := "u1"; row_organizationId := "o1";
                       row_role := "OWNER" |};
                    {| row_userId := "u2"; row_organizationId := "o2";
                       row_role := "OWNER" |};
                    {| row_userId := "u1"; row_organizationId := "o2";
                       row_role := "USER" |} ]
                  "u1")
           "o2" {| userId := "u1"; organizationId := "o2"; role := "USER" |}
           eq_refl).
Defined.

(** X9.  When the store holds at most one row for a subject and an
    organization, the list and the member query agree: an organization is
    listed for the subject exactly when the member query returns it. *)
Theorem getUserOrganizations_unique members u m :
  (∀ x y, x ∈ members → y ∈ members →
          row_userId x = row_userId y →
          row_organizationId x = row_organizationId y → x = y) →
  m ∈ getUserOrganizations members u
  ↔ getOrganizationMember members u (organizationId m) = Some m.
Proof.
  intros Huniq. split.
  - intros (row & Hin & Hu & Hr & ->)%getUserOrganizations_elem.
    cbn [organizationId]. unfold getOrganizationMember.
    destruct (findFirst members u (row_organizationId row)) as [row'|] eqn:Hf.
    + apply findFirst_Some in Hf as (Hin' & Hu' & Ho').
      assert (row' = row) as -> by (apply Huniq; congruence).
      by rewrite Hr.
    + exfalso. by eapply (findFirst_None _ _ _ row Hf).
  - intros Hm. apply getUserOrganizations_elem.
    unfold getOrganizationMember in Hm.
    destruct (findFirst _ _ _) as [row|] eqn:Hf; [|discriminate].
    destruct (isRole (row_role row)) eqn:Hr; [|discriminate].
    injection Hm as <-. apply findFirst_Some in Hf as (Hin & Hu & _).
    by exists row.
Qed.

Lemma getUserOrganizations_unique_witness :
  getOrganizationMember
    [ {| row_userId := "u1"; row_organizationId := "o1"; row_role := "OWNER" |};
      {| row_userId := "u1"; row_organizationId := "o2"; row_role := "USER" |} ]
    "u1" "o2"
  = Some {| userId := "u1"; organizationId := "o2"; role := "USER" |}.
Proof.
  refine (proj1 (getUserOrganizations_unique
                   [ {| row_userId := "u1"; row_organizationId := "o1";
                        row_role := "OWNER" |};
                     {| row_userId := "u1"; row_organizationId := "o2";
                        row_role := "USER" |} ]
                   "u1"
                   {| userId := "u1"; organizationId := "o2"; role := "USER" |}
                   _) _).
  - intros x y Hx Hy.
    apply list_elem_of_In in Hx, Hy. simpl in Hx, Hy.
    destruct Hx as [<-|[<-|[]]], Hy as [<-|[<-|[]]];
      simpl; intros; (reflexivity || discriminate).
  - apply (bool_decide_unpack _). vm_compute. exact I.
Defined.

(** Without that uniqueness the two differ: the member query stops at the
    first row, valid or not. *)
Example getUserOrganizations_shadowed :
  {| userId := "u1"; organizationId := "o1"; role := "USER" |}
  ∈ getUserOrganizations
      [ {| row_userId := "u1"; row_organizationId := "o1"; row_role := "admin" |};
        {| row_userId := "u1"; row_organizationId := "o1"; row_role := "USER" |} ]
      "u1"
  ∧ getOrganizationMember
      [ {| row_userId := "u1"; row_organizationId := "o1"; row_role := "admin" |};
        {| row_userId := "u1"; row_organizationId := "o1"; row_role := "USER" |} ]
      "u1" "o1" = None.
Proof.
  split; [|reflexivity]. apply (bool_decide_unpack _). vm_compute. exact I.
Qed.

End StoreQueries.


(** ** Further properties of the guards *)

Section GuardMore.
Import Types Permissions Context Middleware ServerMiddleware.

(** X10.  A requirement guard that finds no role in the context, as when
    it is mounted without the context guard, never continues: the
    permission guards answer 403 "Role not found in context" whatever the
    permissions, the role guard answers its 403. *)
Theorem guards_without_role {D} (c : Ctx) (allowedRoles : list string)
    (requiredPermissions : list Permission) :
  JS.truthy (var_role (variables c)) = false →
  requirePermission (D:=D) requiredPermissions c
  = (deny 403 "Role not found in context", with_status 403 c)
  ∧ requireAllPermissions (D:=D) requiredPermissions c
    = (deny 403 "Role not found in context", with_status 403 c)
  ∧ requireRole (D:=D) allowedRoles c
    = (deny 403 ("Access denied. Required role: "
                 ++ JS.join " or " allowedRoles),
       with_status 403 c).
Proof.
  intros H.
  cbv [requirePermission requireAllPermissions requireRole mbind M_bind c_get].
  rewrite H. repeat split.
Qed.

Lemma guards_without_role_witness :
  (requireAllPermissions (D:=unit) [] fresh).1
  = deny 403 "Role not found in context".
Proof.
  exact (f_equal fst
           (proj1 (proj2 (guards_without_role (D:=unit) fresh [] [] eq_refl)))).
Defined.

(** X11.  With a role in the context, whatever string it is: the any-of
    guard built from no permission always denies, the all-of guard built
    from no permission always continues and leaves the context as it is,
    and the role guard built from no role always denies. *)
Theorem empty_requirements {D} (c : Ctx) :
  JS.truthy (var_role (variables c)) = true →
  requirePermission (D:=D) [] c
  = (deny 403 "Access denied. Required permission: ", with_status 403 c)
  ∧ requireAllPermissions (D:=D) [] c = (Next, c)
  ∧ requireRole (D:=D) [] c
    = (deny 403 "Access denied. Required role: ", with_status 403 c).
Proof.
  intros H.
  cbv [requirePermission requireAllPermissions requireRole mbind M_bind c_get].
  rewrite H. repeat split.
Qed.

Lemma empty_requirements_witness :
  requireAllPermissions (D:=unit) [] trainer_context = (Next, trainer_context).
Proof.
  exact (proj1 (proj2 (empty_requirements (D:=unit) trainer_context eq_refl))).
Defined.

(** X12.  What the context guard leaves behind when it continues: the
    session's user and session data, a member that is this user's, the
    member's organization and role as organization and role, a declared
    role, and the status untouched. *)
Theorem context_guard_postcondition {D} req members (c c' : Ctx) :
  requireOrganizationContext (D:=D) req members c = (Next, c') →
  ∃ s member,
    getSession req = Some s
    ∧ var_user (variables c') = Some (user s)
    ∧ var_session (variables c') = Some (session s)
    ∧ var_member (variables c') = Some member
    ∧ var_role (variables c') = Some (role member)
    ∧ var_organizationId (variables c') = Some (organizationId member)
    ∧ userId member = id (user s)
    ∧ isRole (role member) = true
    ∧ status c' = status c.
Proof.
  rewrite requireOrganizationContext_cases.
  destruct (getSession req) as [s|]; [|discriminate].
  destruct (JS.truthy _); [|discriminate]. cbn zeta.
  destruct (getOrganizationMember _ _ _) as [member|] eqn:Hm; [|discriminate].
  intros [= <-]. exists s, member.
  unfold getOrganizationMember in Hm.
  destruct (findFirst _ _ _) as [row|] eqn:Hf; [|discriminate].
  destruct (isRole (row_role row)) eqn:Hr; [|discriminate].
  injection Hm as <-. apply findFirst_Some in Hf as (_ & Hu & Ho).
  cbn. rewrite Ho, Hu. done.
Qed.

Lemma context_guard_postcondition_witness :
  ∃ s member,
    getSession sample_request = Some s
    ∧ role member = "USER" ∧ organizationId member = "org1".
Proof.
  destruct (context_guard_postcondition (D:=unit) sample_request
              sample_members fresh _ eq_refl)
    as (s & member & Hs & _ & _ & Hm & _).
  exists s, member. split; [exact Hs|]. injection Hm as <-. split; reflexivity.
Defined.

(** X13.  No guard writes where it should not: a requirement guard never
    changes the context variables, and changes nothing at all when it
    continues; the context guard changes no variable when it denies. *)
Theorem guards_keep_variables {D} req members (q : Requirement) (c : Ctx) :
  variables (guard (D:=D) q c).2 = variables c
  ∧ ((guard (D:=D) q c).1 = Next → (guard (D:=D) q c).2 = c)
  ∧ ((requireOrganizationContext (D:=D) req members c).1 ≠ Next →
     variables (requireOrganizationContext (D:=D) req members c).2
     = variables c).
Proof.
  split; [|split].
  - destruct q; cbv [guard requireRole requirePermission
                       requireAllPermissions mbind M_bind c_get];
      repeat (match goal with |- context [if ?b then _ else _] =>
                destruct b end);
      try reflexivity;
      match goal with |- context [match ?x with _ => _ end] =>
        destruct x as [[]|] end; reflexivity.
  - destruct q; cbv [guard requireRole requirePermission
                       requireAllPermissions mbind M_bind c_get];
      repeat (match goal with |- context [if ?b then _ else _] =>
                destruct b end);
      try (reflexivity || discriminate);
      match goal with |- context [match ?x with _ => _ end] =>
        destruct x as [[]|] end; (reflexivity || discriminate).
  - rewrite requireOrganizationContext_cases.
    destruct (getSession req) as [s|]; [|reflexivity].
    destruct (JS.truthy _); [|reflexivity]. cbn zeta.
    destruct (getOrganizationMember _ _ _); [|reflexivity].
    intros H. by destruct H.
Qed.

Lemma guards_keep_variables_witness :
  (guard (D:=unit) (AllOf [VIEW_USERS]) trainer_context).2 = trainer_context.
Proof.
  exact (proj1 (proj2 (guards_keep_variables (D:=unit) sample_request
                         sample_members (AllOf [VIEW_USERS]) trainer_context))
           eq_refl).
Defined.

Lemma admits_meets (r : Role) (qs : list Requirement) :
  admits (Role_value r) qs = forallb (meets r) qs.
Proof.
  unfold admits. induction qs as [|q qs IH]; [reflexivity|].
  cbn [forallb]. rewrite IH, satisfies_meets. by destruct (meets r q).
Qed.

Lemma find_unmet_admits (r : Role) (qs : list Requirement) :
  match List.find (λ q, negb (meets r q)) qs with
  | Some _ => false
  | None => true
  end = forallb (meets r) qs.
Proof.
  induction qs as [|q qs IH]; [reflexivity|].
  cbn [List.find forallb]. by destruct (meets r q).
Qed.

(** The handler of a protected route is entered, once, exactly when the
    context resolves and the resolved role meets every stacked
    requirement. *)
Lemma handler_calls_protectedRoute {D} req members qs (handler : M (Step D)) :
  handler_calls (protectedRoute req members qs handler)
  = match getSession req with
    | None => 0
    | Some s =>
        if JS.truthy (organizationHint req s) then
          match getOrganizationMember members (id (user s))
                  (default "" (organizationHint req s)) with
          | None => 0
          | Some member => if admits (role member) qs then 1 else 0
          end
        else 0
    end.
Proof.
  rewrite protectedRoute_cases.
  destruct (getSession req) as [s|]; [|reflexivity].
  destruct (JS.truthy _); [|reflexivity]. cbn zeta.
  destruct (getOrganizationMember _ _ _) as [member|] eqn:Hm; [|reflexivity].
  destruct (getOrganizationMember_isRole _ _ _ _ Hm) as [r Hr].
  rewrite (dispatch_guards qs handler r) by (simpl; by rewrite Hr).
  rewrite Hr, admits_meets, <- find_unmet_admits.
  destruct (List.find _ qs); [reflexivity|]. by destruct (handler _).
Qed.

Lemma admits_Permutation role (qs qs' : list Requirement) :
  qs ≡ₚ qs' → admits role qs = admits role qs'.
Proof.
  unfold admits. induction 1 as [|q qs qs' _ IH|q q' qs|qs1 qs2 qs3 _ IH1 _ IH2];
    cbn [forallb].
  - reflexivity.
  - by rewrite IH.
  - by rewrite !andb_assoc, (andb_comm (match satisfies role q' with
                                       | JS.Ok true => true | _ => false end)).
  - by rewrite IH1.
Qed.

(** X14.  The order in which requirement guards are stacked does not
    change whether the handler is entered. *)
Theorem stack_order_irrelevant {D} req members (qs qs' : list Requirement)
    (handler : M (Step D)) :
  qs ≡ₚ qs' →
  handler_calls (protectedRoute req members qs handler)
  = handler_calls (protectedRoute req members qs' handler).
Proof.
  intros Hp. rewrite !handler_calls_protectedRoute.
  destruct (getSession req) as [s|]; [|reflexivity].
  destruct (JS.truthy _); [|reflexivity].
  destruct (getOrganizationMember _ _ _) as [member|]; [|reflexivity].
  by rewrite (admits_Permutation _ _ _ Hp).
Qed.

Lemma stack_order_irrelevant_witness :
  handler_calls (protectedRoute sample_request sample_members
                   [AnyOf [VIEW_WORKOUTS]; RoleIn [USER]] sample_handler)
  = handler_calls (protectedRoute sample_request sample_members
                     [RoleIn [USER]; AnyOf [VIEW_WORKOUTS]] sample_handler).
Proof.
  apply stack_order_irrelevant. apply perm_swap.
Defined.

Lemma every_Ok_true {A} (f : A → JS.outcome bool) (l : list A) :
  match JS.every f l with JS.Ok true => true | _ => false end
  = forallb (λ x, match f x with JS.Ok true => true | _ => false end) l.
Proof.
  induction l as [|x l IH]; [reflexivity|]. cbn [JS.every forallb].
  by destruct (f x) as [[]|].
Qed.

Lemma admits_all_of role (L : list Permission) :
  admits role [AllOf L] = admits role ((λ p, AnyOf [p]) <$> L).
Proof.
  unfold admits at 1. cbn [forallb satisfies]. rewrite andb_true_r.
  unfold hasAllPermissions. rewrite every_Ok_true.
  induction L as [|p L IH]; [reflexivity|].
  cbn [forallb]. rewrite IH. unfold admits.
  change ((λ p, AnyOf [p]) <$> p :: L)
    with (AnyOf [p] :: ((λ p, AnyOf [p]) <$> L)).
  cbn [forallb]. f_equal. cbn [satisfies]. unfold hasAnyPermission.
  cbn [JS.some]. by destruct (hasPermission _ p) as [[]|].
Qed.

(** X15.  One all-of guard admits exactly when the stack of any-of
    guards, one per permission, admits: [requireAllPermissions(p1, ..., pn)]
    and [requirePermission(p1), ..., requirePermission(pn)] enter the
    handler for the same requests. *)
Theorem all_of_is_stacked_singletons {D} req members (L : list Permission)
    (handler : M (Step D)) :
  handler_calls (protectedRoute req members [AllOf L] handler)
  = handler_calls
      (protectedRoute req members ((λ p, AnyOf [p]) <$> L) handler).
Proof.
  rewrite !handler_calls_protectedRoute.
  destruct (getSession req) as [s|]; [|reflexivity].
  destruct (JS.truthy _); [|reflexivity].
  destruct (getOrganizationMember _ _ _) as [member|]; [|reflexivity].
  by rewrite admits_all_of.
Qed.

(** X16.  Behind the plain authentication middleware alone (either of
    the two), no requirement guard ever admits: the handler is never
    entered, and the answer is 401 "Unauthorized" or the guard's 403 for a
    missing role. *)
Theorem plain_authentication_never_admits {D} req (q : Requirement)
    (handler : M (Step D)) :
  postRoutesMiddleware (D:=D) req = privateRoutesMiddleware req
  ∧ handler_calls
      (dispatch [privateRoutesMiddleware req; guard q] handler fresh) = 0
  ∧ (outcome (dispatch [privateRoutesMiddleware req; guard q] handler fresh)
       = deny 401 "Unauthorized"
     ∨ outcome (dispatch [privateRoutesMiddleware req; guard q] handler fresh)
       = deny 403 (match q with
                   | RoleIn _ => denial_message q
                   | _ => "Role not found in context"
                   end)).
Proof.
  split; [reflexivity|].
  cbn [dispatch]. unfold privateRoutesMiddleware.
  destruct (getSession req) as [s|]; [|by split; [|left]].
  cbv [mbind M_bind mret M_ret c_set]. cbn [fresh status variables].
  destruct q as [rs|L|L];
    cbv [guard requireRole requirePermission requireAllPermissions
         mbind M_bind c_get];
    cbn [variables var_role set_session set_user JS.truthy negb orb];
    by split; [|right].
Qed.

(** X17.  The context guard is at least as strict as the plain
    authentication middleware: it answers 401 exactly when that one does,
    and whenever it continues, that one continues too, with the same user
    and session in the context. *)
Theorem context_guard_refines_authentication {D} req members (c : Ctx) :
  ((requireOrganizationContext (D:=D) req members c).1
   = deny 401 "Unauthorized"
   ↔ (privateRoutesMiddleware (D:=D) req c).1 = deny 401 "Unauthorized")
  ∧ ∀ c', requireOrganizationContext (D:=D) req members c = (Next, c') →
          ∃ c'', privateRoutesMiddleware (D:=D) req c = (Next, c'')
                 ∧ var_user (variables c'') = var_user (variables c')
                 ∧ var_session (variables c'') = var_session (variables c').
Proof.
  rewrite requireOrganizationContext_cases. unfold privateRoutesMiddleware.
  destruct (getSession req) as [s|].
  - split.
    + destruct (JS.truthy _); cbn zeta;
        [destruct (getOrganizationMember _ _ _)|]; split; discriminate.
    + intros c'. destruct (JS.truthy _); [|discriminate]. cbn zeta.
      destruct (getOrganizationMember _ _ _); [|discriminate].
      intros [= <-]. eexists. split; [reflexivity|]. split; reflexivity.
  - split; [done|]. discriminate.
Qed.

Lemma context_guard_refines_authentication_witness :
  ∃ c'', privateRoutesMiddleware (D:=unit) sample_request fresh = (Next, c'')
         ∧ var_user (variables c'') = Some sample_user.
Proof.
  destruct (proj2 (context_guard_refines_authentication (D:=unit)
                     sample_request sample_members fresh) _ eq_refl)
    as (c'' & H & Hu & _).
  exists c''. split; [exact H|]. exact Hu.
Defined.

End GuardMore.

(** ** Further properties of the client-side mirror *)

Section MirrorMore.
Import Types Permissions Context Middleware.

Lemma client_hasRole_summaryOf organizations c r (rs : list Role) :
  UseRbac.hasRole (Some (summaryOf organizations c r)) (inr (Role_value <$> rs))
  = meets r (RoleIn rs).
Proof. reflexivity. Qed.

Lemma admits_single (r : Role) (q : Requirement) :
  admits (Role_value r) [q] = meets r q.
Proof. rewrite admits_meets. cbn [forallb]. apply andb_true_r. Qed.

(** X18.  Cross-boundary consistency for roles: for every request whose
    summary the client fetched, a route guarded by a role requirement
    enters its handler exactly when the hook's [hasRole] on that summary
    holds, for a list of roles and for a single role. *)
Theorem hasRole_cross_boundary {D} req members organizations code m
    (handler : M (Step D)) (allowedRoles : list Role) (r : Role) :
  outcome (Me.meRoutes req members organizations)
  = Respond (mkResponse code (Data m)) →
  handler_calls (protectedRoute req members [RoleIn allowedRoles] handler)
  = (if UseRbac.hasRole (Some m) (inr (Role_value <$> allowedRoles))
     then 1 else 0)
  ∧ handler_calls (protectedRoute req members [RoleIn [r]] handler)
    = (if UseRbac.hasRole (Some m) (inl (Role_value r)) then 1 else 0).
Proof.
  intros (s & member & r' & Hs & Ht & Hmem & Hr & _ & ->)%meRoutes_summary.
  rewrite !handler_calls_protectedRoute, Hs, Ht, Hmem, Hr, !admits_single.
  split; reflexivity.
Qed.

Lemma hasRole_cross_boundary_witness :
  handler_calls (protectedRoute sample_request sample_members
                   [RoleIn [OWNER; TRAINER]] sample_handler) = 0.
Proof.
  exact (proj1 (hasRole_cross_boundary sample_request sample_members [] 200 _
                  sample_handler [OWNER; TRAINER] OWNER eq_refl)).
Defined.

(** X19.  What [fetchMembership] makes of the membership route: it
    resolves to the summary the handler built, or it rejects with exactly
    the message of the guard's denial, which is one of the three of the
    context guard; it never falls back to its generic message. *)
Theorem fetchMembership_of_route req members organizations :
  (∃ m, outcome (Me.meRoutes req members organizations)
        = Respond (mkResponse 200 (Data m))
        ∧ RbacClient.fetchMembership
            (outcome (Me.meRoutes req members organizations))
          = inr (Data m))
  ∨ (∃ code message,
       outcome (Me.meRoutes req members organizations) = deny code message
       ∧ RbacClient.fetchMembership
           (outcome (Me.meRoutes req members organizations))
         = inl message
       ∧ (code, message)
         ∈ [ (401, "Unauthorized");
             (400, "Organization ID is required");
             (403, "User is not a member of this organization") ]).
Proof.
  change (Me.meRoutes req members organizations)
    with (protectedRoute req members [] (Me.membership organizations)).
  rewrite protectedRoute_cases.
  destruct (getSession req) as [s|].
  2:{ right. eexists _, _. split; [reflexivity|]. split; [reflexivity|].
      apply (bool_decide_unpack _). vm_compute. exact I. }
  destruct (JS.truthy _).
  2:{ right. eexists _, _. split; [reflexivity|]. split; [reflexivity|].
      apply (bool_decide_unpack _). vm_compute. exact I. }
  cbn zeta. destruct (getOrganizationMember _ _ _) as [member|] eqn:Hm.
  2:{ right. eexists _, _. split; [reflexivity|]. split; [reflexivity|].
      apply (bool_decide_unpack _). vm_compute. exact I. }
  left. destruct (getOrganizationMember_isRole _ _ _ _ Hm) as [r Hr].
  cbn [fmap list_fmap dispatch].
  rewrite (membership_declared _ _ r) by (simpl; by rewrite Hr).
  eexists. split; reflexivity.
Qed.

(** X20.  The guard components mirror the server: once the summary is
    fetched and loading is over, [RequirePermission] renders its children
    exactly when a route guarded by the same permission requirement
    enters its handler, and [RequireRole] exactly when a route guarded by
    the same roles does; otherwise each renders its fallback. *)
Theorem guard_components_match_server {D N} req members organizations code m
    (handler : M (Step D)) (L : list Permission) (requireAll : bool)
    (allowedRoles : list Role) (children : N) (fallback loading : option N) :
  outcome (Me.meRoutes req members organizations)
  = Respond (mkResponse code (Data m)) →
  Guards.RequirePermission (Some m) false (inr L) (Some requireAll)
    children fallback loading
  = (if Nat.eqb
          (handler_calls
             (protectedRoute req members
                [if requireAll then AllOf L else AnyOf L] handler)) 1
     then Some children else fallback)
  ∧ Guards.RequireRole (Some m) false (inr (Role_value <$> allowedRoles))
      children fallback loading
    = (if Nat.eqb
            (handler_calls
               (protectedRoute req members [RoleIn allowedRoles] handler)) 1
       then Some children else fallback).
Proof.
  intros (s & member & r & Hs & Ht & Hmem & Hr & _ & ->)%meRoutes_summary.
  rewrite !handler_calls_protectedRoute, Hs, Ht, Hmem, Hr, !admits_single.
  unfold Guards.RequirePermission, Guards.RequireRole.
  cbn [from_option Datatypes.id].
  change (UseRbac.can ?d None ?ps (Some {| RbacClient.requireAll := Some ?b |}))
    with (RbacClient.hasPermission ps d (withRequireAll b)).
  rewrite client_hasPermission_summaryOf, client_hasRole_summaryOf.
  split.
  - by destruct (meets r (if requireAll then AllOf L else AnyOf L)).
  - by destruct (meets r (RoleIn allowedRoles)).
Qed.

Lemma guard_components_match_server_witness :
  ∃ m, Guards.RequirePermission (Some m) false
         (inr [CREATE_WORKOUTS; ASSIGN_WORKOUTS]) (Some true)
         "content" (Some "fallback") None
       = Some "fallback".
Proof.
  eexists.
  exact (proj1 (guard_components_match_server sample_request sample_members
                  [] 200 _ sample_handler
                  [CREATE_WORKOUTS; ASSIGN_WORKOUTS] true [OWNER]
                  "content" (Some "fallback") None eq_refl)).
Defined.

(** X21.  Without a fetched summary the guard components never render
    their children: they render the loading placeholder while loading and
    the fallback otherwise, whatever is required, the all-of check on no
    permission included. *)
Theorem guard_components_without_summary {N} (isLoading : bool)
    (permission : Permission + list Permission) (requireAll : option bool)
    (role : string + list string) (children : N) (fallback loading : option N) :
  Guards.RequirePermission None isLoading permission requireAll
    children fallback loading
  = (if isLoading then loading else fallback)
  ∧ Guards.RequireRole None isLoading role children fallback loading
    = (if isLoading then loading else fallback)
  ∧ ∀ m, Guards.RequirePermission (Some m) false (inr []) (Some true)
           children fallback loading = Some children.
Proof. repeat split; by destruct isLoading. Qed.

(** X22.  On a fetched summary the permission list and the check agree:
    a permission is listed exactly when [usePermission] holds for it. *)
Theorem listPermissions_can req members organizations code m (p : Permission) :
  outcome (Me.meRoutes req members organizations)
  = Respond (mkResponse code (Data m)) →
  UseRbac.permissions (Some m) = RbacClient.listPermissions (Some m)
  ∧ (p ∈ RbacClient.listPermissions (Some m)
     ↔ UseRbac.usePermission (Some m) (inl p) None = true).
Proof.
  intros (s & member & r & _ & _ & _ & _ & _ & ->)%meRoutes_summary.
  split; [reflexivity|].
  unfold UseRbac.usePermission, UseRbac.can, RbacClient.hasPermission.
  cbn [from_option RbacClient.requireAll Datatypes.id existsb].
  rewrite can_lookup_summaryOf, orb_false_r.
  unfold JS.includes. rewrite bool_decide_eq_true. reflexivity.
Qed.

Lemma listPermissions_can_witness :
  ∃ m, VIEW_SCHEDULE ∈ RbacClient.listPermissions (Some m).
Proof.
  eexists.
  apply (proj2 (listPermissions_can sample_request sample_members [] 200 _
                  VIEW_SCHEDULE eq_refl)).
  reflexivity.
Defined.

(** For a single permission the any-of and the all-of check are the
    plain check, on the server for every role value, throwing included,
    and on the client whatever the options. *)
Theorem single_permission (role : string) (p : Permission)
    (membership : option RbacClient.MembershipSummary)
    (options options' : option RbacClient.PermissionCheckOptions) :
  hasAnyPermission role [p] = hasPermission role p
  ∧ hasAllPermissions role [p] = hasPermission role p
  ∧ RbacClient.hasPermission (inl p) membership options
    = RbacClient.hasPermission (inr [p]) membership options'.
Proof.
  unfold hasAnyPermission, hasAllPermissions. cbn [JS.some JS.every].
  repeat split; try by destruct (hasPermission role p) as [[]|].
  unfold RbacClient.hasPermission. destruct membership as [m|]; [|reflexivity].
  cbn zeta.
  destruct (default false (RbacClient.requireAll (default _ options))),
    (default false (RbacClient.requireAll (default _ options')));
    cbn [forallb existsb]; by destruct (RbacClient.can_lookup m p).
Qed.

End MirrorMore.

(** ** Inviting and removing members *)

Section GymRoutes.
Import Types Permissions Context Middleware.

(** Up to the permission guard, a route guarded by a permission that only
    OWNER holds. *)
Lemma serve_owner_only {A} req rows (P : Permission)
    (rest : list (M (Step Gym.Payload)))
    (handler : M (Step Gym.Payload * A)) (unchanged : A) :
  P = INVITE_MEMBERS ∨ P = REMOVE_MEMBERS →
  Gym.serve (requireOrganizationContext req rows
             :: requirePermission [P] :: rest) handler unchanged fresh
  = match getSession req with
    | None => (deny 401 "Unauthorized", unchanged)
    | Some s =>
        if JS.truthy (organizationHint req s) then
          match getOrganizationMember rows (id (user s))
                  (default "" (organizationHint req s)) with
          | None =>
              (deny 403 "User is not a member of this organization", unchanged)
          | Some member =>
              if String.eqb (role member) (Role_value OWNER) then
                Gym.serve rest handler unchanged
                  (resolved fresh s (default "" (organizationHint req s))
                     member)
              else
                (deny 403 ("Access denied. Required permission: "
                           ++ Permission_value P), unchanged)
          end
        else (deny 400 "Organization ID is required", unchanged)
    end.
Proof.
  intros HP. cbn [Gym.serve]. rewrite requireOrganizationContext_cases.
  destruct (getSession req) as [s|]; [|reflexivity].
  destruct (JS.truthy _); [|reflexivity]. cbn zeta.
  destruct (getOrganizationMember _ _ _) as [member|] eqn:Hm; [|reflexivity].
  destruct (getOrganizationMember_isRole _ _ _ _ Hm) as [r Hr].
  change (requirePermission [P]) with (guard (D:=Gym.Payload) (AnyOf [P])).
  rewrite (guard_cases (AnyOf [P]) r) by (simpl; by rewrite Hr).
  rewrite Hr, satisfies_meets.
  destruct HP as [-> | ->]; destruct r; reflexivity.
Qed.

Lemma inviteRoute_cases req members invitations newId now body :
  Gym.inviteRoute req members invitations newId now body
  = match getSession req with
    | None => (deny 401 "Unauthorized", invitations)
    | Some s =>
        if JS.truthy (organizationHint req s) then
          match getOrganizationMember (Gym.row <$> members) (id (user s))
                  (default "" (organizationHint req s)) with
          | None =>
              (deny 403 "User is not a member of this organization",
               invitations)
          | Some member =>
              if String.eqb (role member) (Role_value OWNER) then
                match body with
                | None =>
                    (Respond (mkResponse 400 (Data Gym.ValidationFailed)),
                     invitations)
                | Some b =>
                    let invitation :=
                      {| Gym.invitation_id := newId;
                         Gym.invitation_organizationId :=
                           default "" (organizationHint req s);
                         Gym.invitation_email := Gym.invite_email b;
                         Gym.invitation_role :=
                           Role_value (Gym.invite_role b);
                         Gym.invitation_status := "PENDING";
                         Gym.invitation_expiresAt := (now + 604800000)%Z;
                         Gym.invitation_inviterId := id (user s) |} in
                    (Respond
                       (mkResponse 201
                          (Data (Gym.InvitationSent invitation
                                   "Invitation sent"))),
                     (invitations ++ [invitation])%list)
                end
              else
                (deny 403 "Access denied. Required permission: INVITE_MEMBERS",
                 invitations)
          end
        else (deny 400 "Organization ID is required", invitations)
    end.
Proof.
  unfold Gym.inviteRoute. rewrite serve_owner_only by (by left).
  destruct (getSession req) as [s|]; [|reflexivity].
  destruct (JS.truthy _); [|reflexivity].
  destruct (getOrganizationMember _ _ _) as [member|]; [|reflexivity].
  destruct (String.eqb (role member) (Role_value OWNER)) eqn:Ho;
    [|reflexivity].
  apply String.eqb_eq in Ho.
  destruct body as [b|]; [|reflexivity].
  cbn [Gym.serve Gym.zValidator mret M_ret].
  cbv [Gym.invite mbind M_bind c_get]. cbn. rewrite Ho.
  destruct b as [e []]; reflexivity.
Qed.

(** X23.  The ways [POST /members/invite] can end: a denial of a guard,
    the validator's 400, or an invitation created by an OWNER of the
    resolved organization, for that organization, with the caller as
    inviter, pending, and expiring seven days from now.  The handler's
    own refusals never occur, and the table changes in the last case
    only, by that one invitation appended. *)
Theorem inviteRoute_outcomes req members invitations newId now body :
  (∃ code message,
     Gym.inviteRoute req members invitations newId now body
     = (deny code message, invitations))
  ∨ (body = None
     ∧ Gym.inviteRoute req members invitations newId now body
       = (Respond (mkResponse 400 (Data Gym.ValidationFailed)), invitations))
  ∨ (∃ s member b,
       getSession req = Some s
       ∧ getOrganizationMember (Gym.row <$> members) (id (user s))
           (default "" (organizationHint req s)) = Some member
       ∧ role member = Role_value OWNER
       ∧ body = Some b
       ∧ Gym.inviteRoute req members invitations newId now body
         = (Respond
              (mkResponse 201
                 (Data (Gym.InvitationSent
                          {| Gym.invitation_id := newId;
                             Gym.invitation_organizationId :=
                               organizationId member;
                             Gym.invitation_email := Gym.invite_email b;
                             Gym.invitation_role :=
                               Role_value (Gym.invite_role b);
                             Gym.invitation_status := "PENDING";
                             Gym.invitation_expiresAt := (now + 604800000)%Z;
                             Gym.invitation_inviterId := userId member |}
                          "Invitation sent"))),
            (invitations
             ++ [ {| Gym.invitation_id := newId;
                     Gym.invitation_organizationId := organizationId member;
                     Gym.invitation_email := Gym.invite_email b;
                     Gym.invitation_role := Role_value (Gym.invite_role b);
                     Gym.invitation_status := "PENDING";
                     Gym.invitation_expiresAt := (now + 604800000)%Z;
                     Gym.invitation_inviterId := userId member |} ])%list)).
Proof.
  rewrite inviteRoute_cases.
  destruct (getSession req) as [s|]; [|left; by eexists _, _].
  destruct (JS.truthy _); [|left; by eexists _, _].
  destruct (getOrganizationMember _ _ _) as [member|] eqn:Hm;
    [|left; by eexists _, _].
  destruct (String.eqb (role member) (Role_value OWNER)) eqn:Ho;
    [|left; by eexists _, _].
  destruct body as [b|]; [|right; left; done].
  right; right. exists s, member, b.
  apply String.eqb_eq in Ho.
  assert (Hid : userId member = id (user s)
                ∧ organizationId member
                  = default "" (organizationHint req s)).
  { unfold getOrganizationMember in Hm.
    destruct (findFirst _ _ _) as [row|] eqn:Hf; [|discriminate].
    destruct (isRole (row_role row)); [|discriminate].
    apply findFirst_Some in Hf as (_ & Hu & Horg).
    injection Hm as <-. by split. }
  destruct Hid as [-> ->]. repeat split; assumption || reflexivity.
Qed.

(** X24.  An OWNER of the resolved organization who sends a valid body is
    always answered 201, whatever role is invited. *)
Theorem owner_invites req members invitations newId now s member b :
  getSession req = Some s →
  JS.truthy (organizationHint req s) = true →
  getOrganizationMember (Gym.row <$> members) (id (user s))
    (default "" (organizationHint req s)) = Some member →
  role member = Role_value OWNER →
  ∃ invitation,
    Gym.inviteRoute req members invitations newId now (Some b)
    = (Respond (mkResponse 201
                  (Data (Gym.InvitationSent invitation "Invitation sent"))),
       (invitations ++ [invitation])%list)
    ∧ Gym.invitation_role invitation = Role_value (Gym.invite_role b).
Proof.
  intros Hs Ht Hm Ho. rewrite inviteRoute_cases, Hs, Ht, Hm, Ho.
  cbn [String.eqb Ascii.eqb Bool.eqb Role_value]. eexists. by split.
Qed.

Lemma owner_invites_witness :
  ∃ invitation,
    (Gym.inviteRoute sample_request gym_members [] "i1" 0
       (Some {| Gym.invite_email := "bob@example.org";
                Gym.invite_role := OWNER |})).2
    = [invitation]
    ∧ Gym.invitation_role invitation = "OWNER".
Proof.
  destruct (owner_invites sample_request gym_members [] "i1" 0 _ _
              {| Gym.invite_email := "bob@example.org";
                 Gym.invite_role := OWNER |}
              eq_refl eq_refl eq_refl eq_refl)
    as (invitation & Hrun & Hrole).
  exists invitation. split; [by rewrite Hrun | exact Hrole].
Defined.

Lemma removeMemberRoute_cases req members targetUserId :
  Gym.removeMemberRoute req members targetUserId
  = match getSession req with
    | None => (deny 401 "Unauthorized", members)
    | Some s =>
        if JS.truthy (organizationHint req s) then
          match getOrganizationMember (Gym.row <$> members) (id (user s))
                  (default "" (organizationHint req s)) with
          | None =>
              (deny 403 "User is not a member of this organization", members)
          | Some member =>
              if String.eqb (role member) (Role_value OWNER) then
                match Gym.findFirstWhere members (Some targetUserId)
                        (Some (default "" (organizationHint req s))) with
                | None =>
                    (Respond (mkResponse 404
                                (Data (Gym.Error "Member not found"))),
                     members)
                | Some target =>
                    (Respond (mkResponse 200
                                (Message "Member removed successfully")),
                     Gym.deleteById members (Gym.member_id target))
                end
              else
                (deny 403 "Access denied. Required permission: REMOVE_MEMBERS",
                 members)
          end
        else (deny 400 "Organization ID is required", members)
    end.
Proof.
  unfold Gym.removeMemberRoute. rewrite serve_owner_only by (by right).
  destruct (getSession req) as [s|]; [|reflexivity].
  destruct (JS.truthy _); [|reflexivity].
  destruct (getOrganizationMember _ _ _) as [member|]; [|reflexivity].
  destruct (String.eqb (role member) (Role_value OWNER)) eqn:Ho;
    [|reflexivity].
  apply String.eqb_eq in Ho.
  cbn [Gym.serve]. cbv [Gym.removeMember mbind M_bind c_get].
  cbn [resolved variables var_organizationId var_role set_member set_role
       set_organizationId set_session set_user].
  rewrite Ho.
  destruct (Gym.findFirstWhere _ _ _) as [target|]; [|reflexivity].
  rewrite (bool_decide_eq_true_2 (Some (Role_value OWNER)
                                  = Some (Role_value OWNER))) by done.
  rewrite (bool_decide_eq_false_2 (Some (Role_value OWNER)
                                   = Some (Role_value USER))) by done.
  by rewrite !andb_false_r.
Qed.

Lemma findFirstWhere_Some members u o target :
  Gym.findFirstWhere members (Some u) (Some o) = Some target →
  target ∈ members
  ∧ Gym.member_userId target = u
  ∧ Gym.member_organizationId target = o.
Proof.
  unfold Gym.findFirstWhere. intros [Hin Hp]%find_some.
  apply andb_true_iff in Hp as [Hu%String.eqb_eq Ho%String.eqb_eq].
  by rewrite list_elem_of_In.
Qed.

Lemma NoDup_fmap_inj {A B} (f : A → B) (l : list A) (x y : A) :
  NoDup (f <$> l) → x ∈ l → y ∈ l → f x = f y → x = y.
Proof.
  induction l as [|a l IH]; [by intros _ ?%elem_of_nil|].
  rewrite fmap_cons, NoDup_cons.
  intros [Ha Hl] [->|Hx]%elem_of_cons [->|Hy]%elem_of_cons E.
  - reflexivity.
  - exfalso. apply Ha. rewrite E. by apply list_elem_of_fmap_2.
  - exfalso. apply Ha. rewrite <- E. by apply list_elem_of_fmap_2.
  - by apply IH.
Qed.

Local Ltac guard_denies :=
  eexists _, _; split; [reflexivity|];
  apply (bool_decide_unpack _); vm_compute; exact I.

(** X25.  The ways [DELETE /members/:userId] can end: a denial of a
    guard, 404 "Member not found", or the removal, by an OWNER of the
    resolved organization, of the first row of the target user in that
    organization.  The handler's own refusals never occur, and the table
    changes in the last case only. *)
Theorem removeMemberRoute_outcomes req members targetUserId :
  (∃ code message,
     Gym.removeMemberRoute req members targetUserId
     = (deny code message, members)
     ∧ code ∈ [401; 400; 403])
  ∨ Gym.removeMemberRoute req members targetUserId
    = (Respond (mkResponse 404 (Data (Gym.Error "Member not found"))), members)
  ∨ (∃ s member target,
       getSession req = Some s
       ∧ getOrganizationMember (Gym.row <$> members) (id (user s))
           (default "" (organizationHint req s)) = Some member
       ∧ role member = Role_value OWNER
       ∧ Gym.findFirstWhere members (Some targetUserId)
           (Some (organizationId member)) = Some target
       ∧ Gym.removeMemberRoute req members targetUserId
         = (Respond (mkResponse 200 (Message "Member removed successfully")),
            Gym.deleteById members (Gym.member_id target))).
Proof.
  rewrite removeMemberRoute_cases.
  destruct (getSession req) as [s|]; [|left; by guard_denies].
  destruct (JS.truthy _); [|left; by guard_denies].
  destruct (getOrganizationMember _ _ _) as [member|] eqn:Hm;
    [|left; by guard_denies].
  destruct (String.eqb (role member) (Role_value OWNER)) eqn:Ho;
    [|left; by guard_denies].
  destruct (Gym.findFirstWhere _ _ _) as [target|] eqn:Hf;
    [|right; left; done].
  right; right. exists s, member, target. apply String.eqb_eq in Ho.
  assert (Horg : organizationId member = default "" (organizationHint req s)).
  { unfold getOrganizationMember in Hm.
    destruct (findFirst _ _ _) as [row|] eqn:Hr; [|discriminate].
    destruct (isRole (row_role row)); [|discriminate].
    apply findFirst_Some in Hr as (_ & _ & Horg). by injection Hm as <-. }
  rewrite Horg. done.
Qed.

(** X26.  Removal is confined to the caller's organization: when the
    primary keys of the table are distinct, the route never adds a row,
    and a row that is gone afterwards is a row of the target user in the
    organization of which the caller is an OWNER; at most one row goes. *)
Theorem removeMember_isolation req members targetUserId :
  NoDup (Gym.member_id <$> members) →
  (Gym.removeMemberRoute req members targetUserId).2 ⊆ members
  ∧ ∀ x, x ∈ members →
         x ∉ (Gym.removeMemberRoute req members targetUserId).2 →
         Gym.member_userId x = targetUserId
         ∧ (∃ s member,
              getSession req = Some s
              ∧ getOrganizationMember (Gym.row <$> members) (id (user s))
                  (default "" (organizationHint req s)) = Some member
              ∧ role member = Role_value OWNER
              ∧ Gym.member_organizationId x = organizationId member)
         ∧ ∀ y, y ∈ members →
                y ∉ (Gym.removeMemberRoute req members targetUserId).2 →
                y = x.
Proof.
  intros Hids. rewrite removeMemberRoute_cases.
  destruct (getSession req) as [s|]; [|by split].
  destruct (JS.truthy _); [|by split].
  destruct (getOrganizationMember _ _ _) as [member|] eqn:Hm; [|by split].
  destruct (String.eqb (role member) (Role_value OWNER)) eqn:Ho; [|by split].
  destruct (Gym.findFirstWhere _ _ _) as [target|] eqn:Hf; [|by split].
  cbn [snd]. apply String.eqb_eq in Ho.
  apply findFirstWhere_Some in Hf as (Hin & Hu & Horg).
  assert (Hgone : ∀ x, x ∈ members →
                       x ∉ Gym.deleteById members (Gym.member_id target) →
                       x = target).
  { intros x Hx Hnot. apply (NoDup_fmap_inj Gym.member_id members); try done.
    destruct (decide (Gym.member_id x = Gym.member_id target)) as [E|E];
      [exact E|].
    exfalso. apply Hnot. unfold Gym.deleteById.
    by apply list_elem_of_filter. }
  split.
  - intros x Hx. unfold Gym.deleteById in Hx.
    by apply list_elem_of_filter in Hx as [_ Hx].
  - intros x Hx Hnot. rewrite (Hgone x Hx Hnot). split; [exact Hu|]. split.
    + exists s, member. repeat split; try done.
      unfold getOrganizationMember in Hm.
      destruct (findFirst _ _ _) as [row|] eqn:Hr; [|discriminate].
      destruct (isRole (row_role row)); [|discriminate].
      apply findFirst_Some in Hr as (_ & _ & Hrow). injection Hm as <-.
      cbn [organizationId]. by rewrite Hrow.
    + intros y Hy Hnoty. exact (Hgone y Hy Hnoty).
Qed.

Lemma removeMember_isolation_witness :
  (Gym.removeMemberRoute sample_request gym_members "u2").2 ⊆ gym_members.
Proof.
  refine (proj1 (removeMember_isolation sample_request gym_members "u2" _)).
  apply (bool_decide_unpack _). vm_compute. exact I.
Defined.

(** X27.  Nothing keeps an OWNER from removing their own membership, and
    doing so locks them out: when the table holds at most one row for a
    subject and an organization, after a successful removal of the
    caller's own row the same request is denied, by every protected
    route, as "User is not a member of this organization". *)
Theorem self_removal_locks_out {D} req members s (qs : list Requirement)
    (handler : M (Step D)) :
  (∀ x y, x ∈ members → y ∈ members →
          Gym.member_userId x = Gym.member_userId y →
          Gym.member_organizationId x = Gym.member_organizationId y →
          x = y) →
  getSession req = Some s →
  (Gym.removeMemberRoute req members (id (user s))).1
  = Respond (mkResponse 200 (Message "Member removed successfully")) →
  outcome (protectedRoute req
             (Gym.row <$> (Gym.removeMemberRoute req members (id (user s))).2)
             qs handler)
  = deny 403 "User is not a member of this organization"
  ∧ handler_calls
      (protectedRoute req
         (Gym.row <$> (Gym.removeMemberRoute req members (id (user s))).2)
         qs handler) = 0.
Proof.
  intros Huniq Hs. rewrite removeMemberRoute_cases, Hs.
  destruct (JS.truthy (organizationHint req s)) eqn:Ht; [|discriminate].
  destruct (getOrganizationMember _ _ _) as [member|]; [|discriminate].
  destruct (String.eqb (role member) (Role_value OWNER)); [|discriminate].
  destruct (Gym.findFirstWhere _ _ _) as [target|] eqn:Hf; [|discriminate].
  intros _. cbn [snd].
  apply findFirstWhere_Some in Hf as (Hin & Hu & Horg).
  assert (Hnone :
    getOrganizationMember
      (Gym.row <$> Gym.deleteById members (Gym.member_id target))
      (id (user s)) (default "" (organizationHint req s)) = None).
  { unfold getOrganizationMember.
    destruct (findFirst _ _ _) as [row|] eqn:Hr; [|reflexivity].
    exfalso. apply findFirst_Some in Hr as (Hrow & Hru & Hro).
    apply list_elem_of_fmap in Hrow as (x & -> & Hx).
    unfold Gym.deleteById in Hx. apply list_elem_of_filter in Hx as [Hne Hx].
    apply Hne. f_equal. apply Huniq; [done|done| |].
    - cbn in Hru. congruence.
    - cbn in Hro. congruence. }
  rewrite protectedRoute_cases, Hs, Ht. cbn zeta. rewrite Hnone. by split.
Qed.

Lemma self_removal_locks_out_witness :
  handler_calls
    (protectedRoute sample_request
       (Gym.row <$> (Gym.removeMemberRoute sample_request gym_members "u1").2)
       [] sample_handler) = 0.
Proof.
  refine (proj2 (self_removal_locks_out sample_request gym_members _ []
                   sample_handler _ eq_refl eq_refl)).
  intros x y Hx Hy.
  apply list_elem_of_In in Hx, Hy. simpl in Hx, Hy.
  destruct Hx as [<-|[<-|[<-|[]]]], Hy as [<-|[<-|[<-|[]]]];
    simpl; intros; (reflexivity || discriminate).
Defined.

End GymRoutes.
